(** * conflicted_ac_page_resolver: a shallow embedding of [resolve]

    The development follows [conflicted_ac_page_resolver.py] top to bottom:
    the marker scan over the lines of the page file, the rebuilding of
    "our" and "their" text, the comparison of annotation ids, the
    mismatch warnings and the insertion of their annotations by timestamp.

    Python values are modelled as the code sees them: lines are strings
    that keep their line end, indexes are naturals, a variable that may
    still be [None] is an [option], a dict loaded from JSON is an
    association list in insertion order, the file system is a finite map
    from file names to contents, and an exception is a value of [exn].
    A character of a text is an [ascii]; texts that do not decode are
    outside the model.  The three library functions the script calls
    ([json.load], [json.dump] and [datetime.fromisoformat]) are parameters
    of the sections below; the module [Lib] computes them on a documented
    fragment of their inputs, for the sample pages of the module
    [Sample]. *)

From Stdlib Require Import ZArith Ascii.
From stdpp Require Import base gmap strings list sorting pretty.

Local Open Scope Z_scope.
Local Open Scope nat_scope.
Local Set Warnings "-register-all".

(** ** Exceptions and outcomes *)

(** [RaisedStr] stands for the two [raise "..."] statements of the script
    (lines 90 and 164).  Python 3 refuses to raise a [str] and reports a
    [TypeError] at that statement; the constructor keeps the message of the
    statement so that the two sites stay apart. *)
Inductive exn : Type :=
| FileNotFoundError (path : string)
| JSONDecodeError
| KeyError
| IndexError
| TypeError
| ValueError
| AttributeError
| RaisedStr (msg : string).

(** [OutOfFuel] is not a Python exception: it is the answer of a loop model
    that was given too few iterations.  [scan_fuel_enough] below shows that
    the insertion loop never gives it. *)
Inductive outcome (A : Type) : Type :=
| Ok (a : A)
| Raise (e : exn)
| OutOfFuel.

Arguments Ok {A} a.
Arguments Raise {A} e.
Arguments OutOfFuel {A}.

Definition obind {A B : Type} (m : outcome A) (f : A -> outcome B) : outcome B :=
  match m with
  | Ok a => f a
  | Raise e => Raise e
  | OutOfFuel => OutOfFuel
  end.

(** The monad instances give the [x ← m; k] notation of stdpp. *)
#[global] Instance outcome_ret : MRet outcome := fun A a => Ok a.
#[global] Instance outcome_bind : MBind outcome := fun A B f m => obind m f.

Fixpoint omap {A B : Type} (f : A -> outcome B) (l : list A) : outcome (list B) :=
  match l with
  | [] => Ok []
  | a :: l' => b ← f a; bs ← omap f l'; Ok (b :: bs)
  end.

(** ** Strings and slices *)

Definition LF : ascii := "010"%char.
Definition CR : ascii := "013"%char.
Definition DQUOTE : ascii := "034"%char.

(** [s.startswith(p)] *)
Definition startswith (s p : string) : bool := String.prefix p s.

(** [s[-n:]] for [n > 0]: the last [n] characters, all of [s] when it is
    shorter. *)
Definition str_suffix (n : nat) (s : string) : string :=
  String.substring (String.length s - n) n s.

(** [s[:-1]] *)
Definition str_drop_last (s : string) : string :=
  String.substring 0 (String.length s - 1) s.

(** [l[-n:]] on a list. *)
Definition list_suffix {A : Type} (n : nat) (l : list A) : list A :=
  drop (length l - n) l.

(** [l[a:b]] where a bound that is [None] is left out, as in [l[:None]]. *)
Definition slice {A : Type} (a b : option nat) (l : list A) : list A :=
  let lo := default 0 a in
  match b with
  | None => drop lo l
  | Some hi => drop lo (take hi l)
  end.

(** The characters of a string, one string each: what [list += str] adds. *)
Fixpoint chars (s : string) : list string :=
  match s with
  | EmptyString => []
  | String c s' => String c EmptyString :: chars s'
  end.

(** [f.writelines(lines)] writes the items one after the other. *)
Definition writelines (l : list string) : string := String.concat EmptyString l.

(** Reading in text mode with [newline=None]: CR LF and CR become LF. *)
Fixpoint universal_newlines (s : string) : string :=
  match s with
  | EmptyString => EmptyString
  | String c s' =>
      if Ascii.eqb c CR then
        match s' with
        | String c' s'' =>
            if Ascii.eqb c' LF then String LF (universal_newlines s'')
            else String LF (universal_newlines s')
        | EmptyString => String LF EmptyString
        end
      else String c (universal_newlines s')
  end.

(** Lines with their line ends kept. *)
Fixpoint split_lines (s : string) : list string :=
  match s with
  | EmptyString => []
  | String c s' =>
      if Ascii.eqb c LF then String c EmptyString :: split_lines s'
      else match split_lines s' with
           | [] => [String c EmptyString]
           | l :: ls => String c l :: ls
           end
  end.

(** [f.readlines()] on a file opened with [newline=None]. *)
Definition readlines (content : string) : list string :=
  split_lines (universal_newlines content).

(** ** The marker scan (lines 33--90) *)

Definition HEAD_MARKER : string := "<<<<<<<".
Definition SEPARATOR : string := "=======".
Definition MASTER_MARKER : string := ">>>>>>>".

Definition conflict : Type := (option nat * option nat * option nat * option nat)%type.

Record scan_state : Type := {
  ours_start : option nat;
  ours_end : option nat;
  theirs_start : option nat;
  theirs_end : option nat;
  unconflicted_start_until_idx : option nat;
  unconflicted_end_from_idx : option nat;
  unconflicted_line_idxs : list nat;
  conflicts : list conflict;
  next_expected_marker : string
}.

Definition scan_init : scan_state := {|
  ours_start := None; ours_end := None; theirs_start := None; theirs_end := None;
  unconflicted_start_until_idx := None;
  unconflicted_end_from_idx := None;
  unconflicted_line_idxs := [];
  conflicts := [];
  next_expected_marker := HEAD_MARKER
|}.

(** The message of line 90. *)
Definition marker_error (expected line : string) (idx : nat) : exn :=
  RaisedStr ("Expected marker '" +:+ expected +:+ "' but encountered '"
             +:+ str_drop_last line +:+ "' on line " +:+ pretty (idx + 1)).

(** One iteration of the loop of line 59. *)
Definition scan_line (st : scan_state) (idx : nat) (line : string) : outcome scan_state :=
  if startswith line HEAD_MARKER && bool_decide (next_expected_marker st = HEAD_MARKER) then
    Ok {| ours_start := Some (idx + 1);
          ours_end := ours_end st;
          theirs_start := theirs_start st;
          theirs_end := theirs_end st;
          unconflicted_start_until_idx :=
            match unconflicted_start_until_idx st with
            | None => Some idx
            | Some i => Some i
            end;
          unconflicted_end_from_idx := unconflicted_end_from_idx st;
          unconflicted_line_idxs :=
            match unconflicted_end_from_idx st with
            | Some e => if e <? idx
                        then unconflicted_line_idxs st ++ seq e (idx - e)
                        else unconflicted_line_idxs st
            | None => unconflicted_line_idxs st
            end;
          conflicts := conflicts st;
          next_expected_marker := SEPARATOR |}
  else if startswith line SEPARATOR && bool_decide (next_expected_marker st = SEPARATOR) then
    Ok {| ours_start := ours_start st;
          ours_end := Some idx;
          theirs_start := Some (idx + 1);
          theirs_end := theirs_end st;
          unconflicted_start_until_idx := unconflicted_start_until_idx st;
          unconflicted_end_from_idx := unconflicted_end_from_idx st;
          unconflicted_line_idxs := unconflicted_line_idxs st;
          conflicts := conflicts st;
          next_expected_marker := MASTER_MARKER |}
  else if startswith line MASTER_MARKER && bool_decide (next_expected_marker st = MASTER_MARKER) then
    Ok {| ours_start := ours_start st;
          ours_end := ours_end st;
          theirs_start := theirs_start st;
          theirs_end := Some idx;
          unconflicted_start_until_idx := unconflicted_start_until_idx st;
          unconflicted_end_from_idx := Some (idx + 1);
          unconflicted_line_idxs := unconflicted_line_idxs st;
          conflicts := conflicts st ++ [(ours_start st, ours_end st, theirs_start st, Some idx)];
          next_expected_marker := HEAD_MARKER |}
  else if (startswith line HEAD_MARKER || startswith line SEPARATOR
           || startswith line MASTER_MARKER)
          && negb (startswith line (next_expected_marker st)) then
    Raise (marker_error (next_expected_marker st) line idx)
  else Ok st.

(** [for idx, line in enumerate(lines)], started at index [idx]. *)
Fixpoint scan_lines (st : scan_state) (idx : nat) (lines : list string) : outcome scan_state :=
  match lines with
  | [] => Ok st
  | line :: rest => st' ← scan_line st idx line; scan_lines st' (idx + 1) rest
  end.

(** ** Rebuilding the two files (lines 97--107) *)

(** The [while] loop of line 100: indexes below [bound] leave the deque from
    the left and their lines are added, character by character, to both
    files. *)
Fixpoint drain (lines : list string) (idxs : list nat) (bound : nat)
    (ours theirs : list string) : outcome (list nat * list string * list string) :=
  match idxs with
  | i :: idxs' =>
      if i <? bound then
        match lines !! i with
        | Some line => drain lines idxs' bound (ours ++ chars line) (theirs ++ chars line)
        | None => Raise IndexError
        end
      else Ok (idxs, ours, theirs)
  | [] => Ok (idxs, ours, theirs)
  end.

(** The [for conflict in conflicts] loop of line 99. *)
Fixpoint splice (lines : list string) (cs : list conflict) (idxs : list nat)
    (ours theirs : list string) : outcome (list string * list string) :=
  match cs with
  | [] => Ok (ours, theirs)
  | (c0, c1, c2, c3) :: cs' =>
      '(idxs', ours', theirs') ←
        match idxs with
        | [] => Ok (idxs, ours, theirs)
        | _ :: _ =>
            match c0 with
            | Some bound => drain lines idxs bound ours theirs
            | None => Raise TypeError
            end
        end;
      splice lines cs' idxs' (ours' ++ slice c0 c1 lines) (theirs' ++ slice c2 c3 lines)
  end.

(** Lines 97--107. *)
Definition rebuild (lines : list string) (st : scan_state) : outcome (list string * list string) :=
  let head := slice None (unconflicted_start_until_idx st) lines in
  '(ours, theirs) ← splice lines (conflicts st) (unconflicted_line_idxs st) head head;
  let tail := slice (unconflicted_end_from_idx st) None lines in
  Ok (ours ++ tail, theirs ++ tail).

(** Lines 45--107: from the lines of the page file to the lines of
    [our_file] and [their_file]. *)
Definition split_sides (lines : list string) : outcome (list string * list string) :=
  st ← scan_lines scan_init 0 lines;
  rebuild lines st.

(** ** JSON values as Python sees them *)

(** What [json.load] returns: [None], [bool], [int], [str], [list] and
    [dict].  A dict keeps its keys in insertion order.  Numbers with a
    fraction or an exponent ([float]) are outside the model. *)
Inductive json : Type :=
| JNull
| JBool (b : bool)
| JInt (z : Z)
| JStr (s : string)
| JArr (l : list json)
| JObj (kvs : list (string * json)).

(** [d.get(k)] on the association list of a dict. *)
Fixpoint assoc (k : string) (kvs : list (string * json)) : option json :=
  match kvs with
  | [] => None
  | (k', v) :: kvs' => if String.eqb k k' then Some v else assoc k kvs'
  end.

(** Python's [==] on such values: [True == 1], lists are compared item by
    item, dicts key by key whatever the order of the keys. *)
Fixpoint py_eq (a b : json) {struct a} : bool :=
  match a, b with
  | JNull, JNull => true
  | JBool x, JBool y => Bool.eqb x y
  | JBool x, JInt z => Z.eqb (Z.b2z x) z
  | JInt z, JBool x => Z.eqb z (Z.b2z x)
  | JInt x, JInt y => Z.eqb x y
  | JStr x, JStr y => String.eqb x y
  | JArr x, JArr y =>
      (fix items (x y : list json) {struct x} : bool :=
         match x, y with
         | [], [] => true
         | a' :: x', b' :: y' => py_eq a' b' && items x' y'
         | _, _ => false
         end) x y
  | JObj x, JObj y =>
      Nat.eqb (length x) (length y) &&
      (fix entries (x : list (string * json)) {struct x} : bool :=
         match x with
         | [] => true
         | (k, v) :: x' =>
             match assoc k y with
             | Some v' => py_eq v v'
             | None => false
             end && entries x'
         end) x
  | _, _ => false
  end.

Definition py_ne (a b : json) : bool := negb (py_eq a b).

(** [j[k]] for a [str] [k]. *)
Definition getitem_str (j : json) (k : string) : outcome json :=
  match j with
  | JObj kvs => match assoc k kvs with Some v => Ok v | None => Raise KeyError end
  | _ => Raise TypeError
  end.

(** [j[0]] *)
Definition getitem_0 (j : json) : outcome json :=
  match j with
  | JArr (x :: _) => Ok x
  | JArr [] => Raise IndexError
  | JStr (String c _) => Ok (JStr (String c EmptyString))
  | JStr EmptyString => Raise IndexError
  | JObj _ => Raise KeyError
  | _ => Raise TypeError
  end.

(** [j[-42:]]: a slice of a [str] or of a [list]; a dict has no slice key
    ([KeyError]; slices are hashable in the Python the script is written
    for), anything else cannot be subscripted. *)
Definition getslice_last42 (j : json) : outcome json :=
  match j with
  | JStr s => Ok (JStr (str_suffix 42 s))
  | JArr l => Ok (JArr (list_suffix 42 l))
  | JObj _ => Raise KeyError
  | _ => Raise TypeError
  end.

(** [annotation["id"][-42:]] *)
Definition annotation_id (annotation : json) : outcome json :=
  v ← getitem_str annotation "id"; getslice_last42 v.

(** [for x in j]: the items of a list, the keys of a dict, the characters
    of a str. *)
Definition py_iter (j : json) : outcome (list json) :=
  match j with
  | JArr l => Ok l
  | JObj kvs => Ok (map (λ kv, JStr kv.1) kvs)
  | JStr s => Ok (map JStr (chars s))
  | _ => Raise TypeError
  end.

(** [[annotation["id"][-42:] for annotation in annotations]] *)
Definition annotation_ids (annotations : list json) : outcome (list json) :=
  omap annotation_id annotations.

(** [set(ids)]: the results of [annotation_id] are strs, which hash, or
    lists, which do not. *)
Definition py_set (ids : list json) : outcome (gset string) :=
  l ← omap (λ k, match k with JStr s => Ok s | _ => Raise TypeError end) ids;
  Ok (list_to_set l).

(** [list(s)] for a set [s] of strs gives the members in an order that the
    language leaves open (it follows the hashes, which change from run to
    run).  A [set_order] is one such choice of order. *)
Record set_order : Type := {
  set_to_list :> gset string → list string;
  set_to_list_elem : ∀ (s : gset string) (x : string), x ∈ set_to_list s ↔ x ∈ s
}.

(** [k in ids] for a list [ids] of strs. *)
Definition key_in (k : json) (ids : list string) : bool :=
  match k with
  | JStr s => bool_decide (s ∈ ids)
  | _ => false
  end.

(** [[a for a in annotations if a["id"][-42:] in ids]] *)
Fixpoint annotations_with_id_in (ids : list string) (annotations : list json)
    : outcome (list json) :=
  match annotations with
  | [] => Ok []
  | a :: rest =>
      k ← annotation_id a;
      l ← annotations_with_id_in ids rest;
      Ok (if key_in k ids then a :: l else l)
  end.

(** ** The world: files and the console *)

(** The files are kept under the paths as the script spells them.  Two
    spellings of one file ([./our_file] and [our_file], a link and its
    target) are two keys here: the model is of runs in which the paths in
    play name different files when they are spelled differently. *)
Record world : Type := {
  files : gmap string string;
  stdout : list string
}.

Definition M (A : Type) : Type := world → world * outcome A.

#[global] Instance M_ret : MRet M := λ A a w, (w, Ok a).
#[global] Instance M_bind : MBind M := λ A B f m w,
  match m w with
  | (w', Ok a) => f a w'
  | (w', Raise e) => (w', Raise e)
  | (w', OutOfFuel) => (w', OutOfFuel)
  end.

Definition lift {A : Type} (o : outcome A) : M A := λ w, (w, o).

(** A computation that never answers [OutOfFuel]. *)
Definition no_oof {A : Type} (m : M A) : Prop := ∀ w, (m w).2 ≠ OutOfFuel.

Definition print (msg : string) : M unit :=
  λ w, ({| files := files w; stdout := stdout w ++ [msg] |}, Ok ()).

Definition read_file (path : string) : M string :=
  λ w, (w, match files w !! path with
           | Some content => Ok content
           | None => Raise (FileNotFoundError path)
           end).

Definition write_file (path content : string) : M unit :=
  λ w, ({| files := <[path := content]> (files w); stdout := stdout w |}, Ok ()).

(** ** The mismatch check (lines 128--142) *)

(** The text of line 139 for the id [s]. *)
Definition warning_text (s : string) : string :=
  "WARNING: Mismatch in annotations with ID " +:+ s +:+ ", check manually".

(** The f-string of line 139.  Only an id that is a str reaches the line:
    [set(...)] of line 124 has raised for any other. *)
Definition mismatch_warning (k : json) : outcome string :=
  match k with
  | JStr s => Ok (warning_text s)
  | _ => Raise TypeError
  end.

(** The inner loop, line 134; [acc] is [their_new_annotations]. *)
Fixpoint compare_with_theirs (our_annotation : json) (their_annotations : list json)
    (acc : list json) : M (list json) :=
  match their_annotations with
  | [] => mret acc
  | their_annotation :: rest =>
      tid ← lift (annotation_id their_annotation);
      oid ← lift (annotation_id our_annotation);
      if py_ne tid oid then compare_with_theirs our_annotation rest acc
      else if py_ne their_annotation our_annotation then
        k ← lift (annotation_id our_annotation);
        msg ← lift (mismatch_warning k);
        _ ← print msg;
        compare_with_theirs our_annotation rest (acc ++ [their_annotation])
      else compare_with_theirs our_annotation rest acc
  end.

(** The outer loop, line 130. *)
Fixpoint check_shared (both_annotation_ids : list string)
    (our_annotations their_annotations : list json) (acc : list json) : M (list json) :=
  match our_annotations with
  | [] => mret acc
  | our_annotation :: rest =>
      oid ← lift (annotation_id our_annotation);
      if negb (key_in oid both_annotation_ids)
      then check_shared both_annotation_ids rest their_annotations acc
      else
        acc' ← compare_with_theirs our_annotation their_annotations acc;
        check_shared both_annotation_ids rest their_annotations acc'
  end.

(** ** Timestamps *)

(** A [datetime]: whether it carries a UTC offset, and its position on the
    time line in microseconds (of UTC when it carries an offset, of its own
    fields when it does not). *)
Record datetime : Type := {
  dt_aware : bool;
  dt_micros : Z
}.

(** [a <= b]: a datetime with an offset cannot be ordered with one
    without. *)
Definition datetime_le (a b : datetime) : outcome bool :=
  if Bool.eqb (dt_aware a) (dt_aware b) then Ok (dt_micros a <=? dt_micros b)%Z
  else Raise TypeError.

Definition CATMA_MARKUPTIMESTAMP_UUID : string :=
  "CATMA_54A5F93F-5333-3F0D-92F7-7BD5930DB9E6".

Section Resolver.

(** The library: [json.loads] ([None] for a [JSONDecodeError]),
    [json.dumps(_, indent=2)] and [datetime.fromisoformat] ([None] for a
    [ValueError]). *)
Variable json_loads : string → option json.
Variable json_dumps : json → string.
Variable fromisoformat : string → option datetime.

(** [datetime.fromisoformat(
       a["body"]["properties"]["system"][CATMA_MARKUPTIMESTAMP_UUID][0])] *)
Definition markup_timestamp (a : json) : outcome datetime :=
  body ← getitem_str a "body";
  properties ← getitem_str body "properties";
  system ← getitem_str properties "system";
  values ← getitem_str system CATMA_MARKUPTIMESTAMP_UUID;
  t ← getitem_0 values;
  match t with
  | JStr s => match fromisoformat s with
              | Some d => Ok d
              | None => Raise ValueError
              end
  | _ => Raise TypeError
  end.

(** ** Insertion by timestamp (lines 144--168) *)

(** [l.insert(idx, x)] *)
Definition list_insert_at {A : Type} (idx : nat) (x : A) (l : list A) : list A :=
  take idx l ++ x :: drop idx l.

(** The loop of line 149, from the iteration that looks at index [idx].
    The list iterator reads [our_annotations[idx]] afresh on every
    iteration and stops when [idx] has reached the length the list has by
    then, so an item appended by the loop body is visited too.  The result
    is the list and [was_added] as the loop leaves them. *)
Fixpoint scan (fuel : nat) (our_annotations : list json) (their_new_annotation : json)
    (idx : nat) (was_added : bool) : outcome (list json * bool) :=
  match fuel with
  | 0 => OutOfFuel
  | S fuel' =>
      match our_annotations !! idx with
      | None => Ok (our_annotations, was_added)
      | Some our_annotation =>
          t_ours ← markup_timestamp our_annotation;
          t_theirs ← markup_timestamp their_new_annotation;
          le ← datetime_le t_ours t_theirs;
          if le : bool then
            Ok (list_insert_at idx their_new_annotation our_annotations, true)
          else if idx =? length our_annotations - 1 then
            scan fuel' (our_annotations ++ [their_new_annotation])
                 their_new_annotation (idx + 1) true
          else
            scan fuel' our_annotations their_new_annotation (idx + 1) was_added
      end
  end.

(** The body of the loop of line 146 for one annotation of theirs. *)
Definition add_annotation (our_annotations : list json) (their_new_annotation : json)
    : outcome (list json) :=
  '(l, was_added) ← scan (length our_annotations + 2) our_annotations
                         their_new_annotation 0 false;
  if was_added : bool then Ok l else Raise (RaisedStr "Failed to add annotation").

(** The loop of line 146. *)
Fixpoint add_annotations (our_annotations : list json) (their_new_annotations : list json)
    : outcome (list json) :=
  match their_new_annotations with
  | [] => Ok our_annotations
  | a :: rest => l ← add_annotation our_annotations a; add_annotations l rest
  end.

(** [our_annotations.reverse()]: a method of lists only. *)
Definition py_reverse (j : json) : outcome (list json) :=
  match j with
  | JArr l => Ok (reverse l)
  | _ => Raise AttributeError
  end.

(** Lines 145--168: [our_annotations] with [their_new_annotations] put in. *)
Definition merge_annotations (our_annotations : json) (their_new_annotations : list json)
    : outcome (list json) :=
  reversed ← py_reverse our_annotations;
  l ← add_annotations reversed their_new_annotations;
  Ok (reverse l).

(** ** Lines 122--168: from the two loaded values to the merged list *)

(** Line 124. *)
Definition their_new_annotation_ids (E : set_order) (our_ids their_ids : list json)
    : outcome (list string) :=
  theirs ← py_set their_ids;
  ours ← py_set our_ids;
  Ok (E (theirs ∖ ours)).

(** Lines 124--126. *)
Definition their_new_annotations (E : set_order) (our_ids their_ids : list json)
    (their_annotations : list json) : outcome (list json) :=
  new_ids ← their_new_annotation_ids E our_ids their_ids;
  annotations_with_id_in new_ids their_annotations.

(** Line 129. *)
Definition both_annotation_ids (E : set_order) (our_ids their_ids : list json)
    : outcome (list string) :=
  theirs ← py_set their_ids;
  ours ← py_set our_ids;
  Ok (E (theirs ∩ ours)).

(** Lines 122--168. *)
Definition merge_pages (E : set_order) (our_annotations their_annotations : json)
    : M (list json) :=
  ours ← lift (py_iter our_annotations);
  our_ids ← lift (annotation_ids ours);
  theirs ← lift (py_iter their_annotations);
  their_ids ← lift (annotation_ids theirs);
  new ← lift (their_new_annotations E our_ids their_ids theirs);
  both_ids ← lift (both_annotation_ids E our_ids their_ids);
  new' ← check_shared both_ids ours theirs new;
  lift (merge_annotations our_annotations new').

(** ** The whole of [resolve] *)

(** [json.load(f)] on a file that was opened for reading and writing. *)
Definition json_load (path : string) : M json :=
  content ← read_file path;
  match json_loads content with
  | Some j => mret j
  | None => lift (Raise JSONDecodeError)
  end.

(** Lines 41--171. *)
Definition resolve (E : set_order) (page_file : string) : M unit :=
  content ← read_file page_file;
  let lines := readlines content in
  '(our_file_lines, their_file_lines) ← lift (split_sides lines);
  _ ← write_file "our_file" (writelines our_file_lines);
  _ ← write_file "their_file" (writelines their_file_lines);
  our_annotations ← json_load "our_file";
  their_annotations ← json_load "their_file";
  merged ← merge_pages E our_annotations their_annotations;
  write_file "merged_file" (json_dumps (JArr merged)).

(** ** The insertion loop read by structural recursion *)

(** What the loop of line 149 does to the part of the list it has not
    looked at yet: it walks past the annotations that are later than the
    new one and puts the new one in front of the first that is not.  When
    it runs off the end it has appended the new annotation, meets it again
    as the next item and inserts it in front of itself. *)
Fixpoint place (rest : list json) (their_new_annotation : json) : outcome (list json) :=
  match rest with
  | [] => Ok [their_new_annotation; their_new_annotation]
  | our_annotation :: rest' =>
      t_ours ← markup_timestamp our_annotation;
      t_theirs ← markup_timestamp their_new_annotation;
      le ← datetime_le t_ours t_theirs;
      if le : bool then Ok (their_new_annotation :: our_annotation :: rest')
      else l ← place rest' their_new_annotation; Ok (our_annotation :: l)
  end.

(** ** Notions the statements below are written in *)

(** [ts_leb a b]: the test of line 150 with [a] on the left and [b] on the
    right, [false] when it raises. *)
Definition ts_leb (a b : json) : bool :=
  match markup_timestamp a, markup_timestamp b with
  | Ok ta, Ok tb => match datetime_le ta tb with Ok le => le | _ => false end
  | _, _ => false
  end.

(** [a.timestamp <= b.timestamp]: both timestamps are read and compared
    without an exception, and the first is not later than the second. *)
Definition ts_le (a b : json) : Prop :=
  ∃ ta tb, markup_timestamp a = Ok ta ∧ markup_timestamp b = Ok tb
           ∧ datetime_le ta tb = Ok true.

(** A collection in ascending timestamp order: every adjacent pair is. *)
Definition ascending (l : list json) : Prop := Sorted ts_le l.

(** The timestamp of [a] is read without an exception and carries an
    offset exactly when [aware] says so. *)
Definition has_timestamp (aware : bool) (a : json) : Prop :=
  ∃ d, markup_timestamp a = Ok d ∧ dt_aware d = aware.

(** The id of [a] is a str. *)
Definition has_str_id (a : json) : Prop :=
  ∃ k, annotation_id a = Ok (JStr k).

(** Putting [r] into an ascending list behind every record whose timestamp
    is not later than its own, and so behind those with an equal one. *)
Fixpoint insert_after_ties (r : json) (l : list json) : list json :=
  match l with
  | [] => [r]
  | e :: l' => if ts_leb e r then e :: insert_after_ties r l' else r :: e :: l'
  end.

(** The identity of [a] is that of no record of [ours]. *)
Definition id_absent_from (ours : list json) (a : json) : bool :=
  match annotation_id a with
  | Ok k => forallb (λ o, match annotation_id o with
                          | Ok k' => py_ne k k'
                          | _ => true
                          end) ours
  | _ => false
  end.

(** The world after the lines [msgs] have been printed. *)
Definition emit (msgs : list string) (w : world) : world :=
  {| files := files w; stdout := stdout w ++ msgs |}.

(** Their annotations that carry the id of [our_annotation] and are not
    equal to it. *)
Definition mismatched_with (our_annotation : json) (their_annotations : list json)
    : list json :=
  List.filter (λ b, match annotation_id b, annotation_id our_annotation with
                    | Ok kb, Ok ka => py_eq kb ka && py_ne b our_annotation
                    | _, _ => false
                    end) their_annotations.

(** The mismatches in the order the two loops of line 130 meet them, each
    with the id it is reported under. *)
Definition shared_mismatches (both_ids : list string)
    (our_annotations their_annotations : list json) : list (string * json) :=
  flat_map (λ a, match annotation_id a with
                 | Ok (JStr k) =>
                     if bool_decide (k ∈ both_ids)
                     then (λ b, (k, b)) <$> mismatched_with a their_annotations
                     else []
                 | _ => []
                 end) our_annotations.

End Resolver.

(** ** The library, for a fragment of its inputs

    The functions of [resolve] above take [json.loads], [json.dumps] and
    [datetime.fromisoformat] as parameters, and the general statements hold
    for every choice of them.  The examples need the three functions to
    run; the definitions of this part compute them on a fragment: JSON
    texts of ASCII characters without [\u] escapes whose numbers are
    integers, and timestamps written [YYYY-MM-DD], then optionally any one
    character, [HH:MM:SS], a fraction of three or six digits and an offset
    [Z], [+HH:MM] or [+HHMM].  Outside the fragment they answer [None]. *)

Module Lib.

Definition is_ws (c : ascii) : bool :=
  Ascii.eqb c " " || Ascii.eqb c "009" || Ascii.eqb c LF || Ascii.eqb c CR.

Fixpoint skip_ws (s : list ascii) : list ascii :=
  match s with
  | c :: s' => if is_ws c then skip_ws s' else s
  | [] => []
  end.

Definition digit (c : ascii) : option Z :=
  let n := nat_of_ascii c in
  if (48 <=? n) && (n <=? 57) then Some (Z.of_nat (n - 48)) else None.

Fixpoint digits (acc : Z) (s : list ascii) : Z * list ascii :=
  match s with
  | c :: s' => match digit c with
               | Some d => digits (10 * acc + d) s'
               | None => (acc, s)
               end
  | [] => (acc, s)
  end.

(** An integer literal: a zero or a digit from 1 to 9 followed by digits;
    a fraction or an exponent behind it would make a float. *)
Definition number (s : list ascii) : option (Z * list ascii) :=
  match s with
  | c :: s' =>
      match digit c with
      | Some d =>
          let '(n, rest) := if (d =? 0)%Z then (0%Z, s') else digits d s' in
          match rest with
          | c' :: _ =>
              if Ascii.eqb c' "." || Ascii.eqb c' "e" || Ascii.eqb c' "E"
              then None else Some (n, rest)
          | [] => Some (n, rest)
          end
      | None => None
      end
  | [] => None
  end.

Definition unescape (c : ascii) : option ascii :=
  if Ascii.eqb c DQUOTE then Some DQUOTE
  else if Ascii.eqb c "\" then Some "\"%char
  else if Ascii.eqb c "/" then Some "/"%char
  else if Ascii.eqb c "b" then Some "008"%char
  else if Ascii.eqb c "f" then Some "012"%char
  else if Ascii.eqb c "n" then Some LF
  else if Ascii.eqb c "r" then Some CR
  else if Ascii.eqb c "t" then Some "009"%char
  else None.

(** The characters of a string literal behind its opening quote. *)
Fixpoint string_body (s : list ascii) : option (string * list ascii) :=
  match s with
  | [] => None
  | c :: s' =>
      if Ascii.eqb c DQUOTE then Some (EmptyString, s')
      else if Ascii.eqb c "\" then
        match s' with
        | e :: s'' =>
            match unescape e, string_body s'' with
            | Some c', Some (str, rest) => Some (String c' str, rest)
            | _, _ => None
            end
        | [] => None
        end
      else if (nat_of_ascii c <? 32) || (127 <? nat_of_ascii c) then None
      else match string_body s' with
           | Some (str, rest) => Some (String c str, rest)
           | None => None
           end
  end.

(** [d[k] = v]: a key that is there keeps its place. *)
Fixpoint dict_set (k : string) (v : json) (kvs : list (string * json))
    : list (string * json) :=
  match kvs with
  | [] => [(k, v)]
  | (k', v') :: kvs' =>
      if String.eqb k k' then (k, v) :: kvs' else (k', v') :: dict_set k v kvs'
  end.

Fixpoint parse_value (fuel : nat) (s : list ascii) : option (json * list ascii) :=
  match fuel with
  | 0 => None
  | S fuel' =>
      match s with
      | "n" :: "u" :: "l" :: "l" :: rest => Some (JNull, rest)
      | "t" :: "r" :: "u" :: "e" :: rest => Some (JBool true, rest)
      | "f" :: "a" :: "l" :: "s" :: "e" :: rest => Some (JBool false, rest)
      | "[" :: rest =>
          match skip_ws rest with
          | "]" :: rest' => Some (JArr [], rest')
          | rest' =>
              match parse_elements fuel' rest' with
              | Some (l, rest'') => Some (JArr l, rest'')
              | None => None
              end
          end
      | "{" :: rest =>
          match skip_ws rest with
          | "}" :: rest' => Some (JObj [], rest')
          | rest' =>
              match parse_members fuel' [] rest' with
              | Some (kvs, rest'') => Some (JObj kvs, rest'')
              | None => None
              end
          end
      | "-" :: rest =>
          match number rest with
          | Some (n, rest') => Some (JInt (- n), rest')
          | None => None
          end
      | c :: rest =>
          if Ascii.eqb c DQUOTE then
            match string_body rest with
            | Some (str, rest') => Some (JStr str, rest')
            | None => None
            end
          else
            match number s with
            | Some (n, rest') => Some (JInt n, rest')
            | None => None
            end
      | [] => None
      end
  end%char
with parse_elements (fuel : nat) (s : list ascii) : option (list json * list ascii) :=
  match fuel with
  | 0 => None
  | S fuel' =>
      match parse_value fuel' s with
      | Some (v, rest) =>
          match skip_ws rest with
          | "," :: rest' =>
              match parse_elements fuel' (skip_ws rest') with
              | Some (l, rest'') => Some (v :: l, rest'')
              | None => None
              end
          | "]" :: rest' => Some ([v], rest')
          | _ => None
          end
      | None => None
      end
  end%char
with parse_members (fuel : nat) (acc : list (string * json)) (s : list ascii)
    : option (list (string * json) * list ascii) :=
  match fuel with
  | 0 => None
  | S fuel' =>
      match s with
      | c :: rest =>
          if Ascii.eqb c DQUOTE then
            match string_body rest with
            | Some (k, rest1) =>
                match skip_ws rest1 with
                | ":" :: rest2 =>
                    match parse_value fuel' (skip_ws rest2) with
                    | Some (v, rest3) =>
                        match skip_ws rest3 with
                        | "," :: rest4 =>
                            parse_members fuel' (dict_set k v acc) (skip_ws rest4)
                        | "}" :: rest4 => Some (dict_set k v acc, rest4)
                        | _ => None
                        end
                    | None => None
                    end
                | _ => None
                end
            | None => None
            end
          else None
      | [] => None
      end
  end%char.

(** [json.loads] *)
Definition json_loads (s : string) : option json :=
  let l := String.list_ascii_of_string s in
  match parse_value (2 * length l + 2) (skip_ws l) with
  | Some (v, rest) => match skip_ws rest with [] => Some v | _ => None end
  | None => None
  end.

Definition hex_digit (n : nat) : ascii :=
  ascii_of_nat (if n <? 10 then 48 + n else 87 + n).

(** A string literal as [json.dumps] writes it. *)
Fixpoint escape (s : string) : string :=
  match s with
  | EmptyString => EmptyString
  | String c s' =>
      let n := nat_of_ascii c in
      (if Ascii.eqb c DQUOTE then String "\" (String DQUOTE EmptyString)
       else if Ascii.eqb c "\" then "\\"
       else if Ascii.eqb c LF then "\n"
       else if Ascii.eqb c CR then "\r"
       else if Ascii.eqb c "009" then "\t"
       else if Ascii.eqb c "008" then "\b"
       else if Ascii.eqb c "012" then "\f"
       else if (n <? 32) || (126 <? n)
       then "\u00" +:+ String (hex_digit (n / 16))
                      (String (hex_digit (n mod 16)) EmptyString)
       else String c EmptyString) +:+ escape s'
  end.

Definition quote (s : string) : string :=
  String DQUOTE (escape s +:+ String DQUOTE EmptyString).

Fixpoint spaces (n : nat) : string :=
  match n with
  | 0 => EmptyString
  | S n' => String " " (spaces n')
  end.

Definition newline_indent (level : nat) : string :=
  String LF (spaces (2 * level)).

(** [json.dumps(j, indent=2)] at nesting depth [level]. *)
Fixpoint dumps_at (level : nat) (j : json) : string :=
  match j with
  | JNull => "null"
  | JBool true => "true"
  | JBool false => "false"
  | JInt z => pretty z
  | JStr s => quote s
  | JArr [] => "[]"
  | JArr l =>
      "[" +:+ newline_indent (S level)
      +:+ String.concat ("," +:+ newline_indent (S level)) (map (dumps_at (S level)) l)
      +:+ newline_indent level +:+ "]"
  | JObj [] => "{}"
  | JObj kvs =>
      "{" +:+ newline_indent (S level)
      +:+ String.concat ("," +:+ newline_indent (S level))
            (map (λ kv, quote kv.1 +:+ ": " +:+ dumps_at (S level) kv.2) kvs)
      +:+ newline_indent level +:+ "}"
  end.

Definition json_dumps (j : json) : string := dumps_at 0 j.

(** *** Timestamps *)

Definition two (c1 c2 : ascii) : option Z :=
  match digit c1, digit c2 with
  | Some a, Some b => Some (10 * a + b)%Z
  | _, _ => None
  end.

Definition is_leap (y : Z) : bool :=
  ((y mod 4 =? 0) && negb (y mod 100 =? 0) || (y mod 400 =? 0))%Z.

Definition days_in_month (y m : Z) : Z :=
  (if m =? 2 then (if is_leap y then 29 else 28)
   else if (m =? 4) || (m =? 6) || (m =? 9) || (m =? 11) then 30 else 31)%Z.

(** Days from 1970-01-01 to the given day of the proleptic Gregorian
    calendar. *)
Definition days_from_civil (y m d : Z) : Z :=
  (let y' := if m <=? 2 then y - 1 else y in
   let era := y' / 400 in
   let yoe := y' - era * 400 in
   let doy := (153 * (if 2 <? m then m - 3 else m + 9) + 2) / 5 + d - 1 in
   let doe := yoe * 365 + yoe / 4 - yoe / 100 + doy in
   era * 146097 + doe - 719468)%Z.

Definition date (s : list ascii) : option (Z * list ascii) :=
  match s with
  | y1 :: y2 :: y3 :: y4 :: "-" :: m1 :: m2 :: "-" :: d1 :: d2 :: rest =>
      match two y1 y2, two y3 y4, two m1 m2, two d1 d2 with
      | Some yh, Some yl, Some m, Some d =>
          let y := (100 * yh + yl)%Z in
          if ((1 <=? y) && (1 <=? m) && (m <=? 12) && (1 <=? d)
              && (d <=? days_in_month y m))%Z
          then Some (days_from_civil y m d, rest) else None
      | _, _, _, _ => None
      end
  | _ => None
  end%char.

(** [HH:MM:SS] and an optional fraction, in microseconds. *)
Definition time_of_day (s : list ascii) : option (Z * list ascii) :=
  match s with
  | h1 :: h2 :: ":" :: m1 :: m2 :: ":" :: s1 :: s2 :: rest =>
      match two h1 h2, two m1 m2, two s1 s2 with
      | Some h, Some m, Some sec =>
          if ((h <=? 23) && (m <=? 59) && (sec <=? 59))%Z then
            let whole := (((h * 60 + m) * 60 + sec) * 1000000)%Z in
            match rest with
            | "." :: f1 :: f2 :: f3 :: rest' =>
                match digit f1, digit f2, digit f3 with
                | Some a, Some b, Some c =>
                    let milli := (100 * a + 10 * b + c)%Z in
                    match rest' with
                    | f4 :: f5 :: f6 :: rest'' =>
                        match digit f4, digit f5, digit f6 with
                        | Some d, Some e, Some f =>
                            Some (whole + milli * 1000 + 100 * d + 10 * e + f, rest'')%Z
                        | None, _, _ => Some (whole + milli * 1000, rest')%Z
                        | _, _, _ => None
                        end
                    | _ => Some (whole + milli * 1000, rest')%Z
                    end
                | _, _, _ => None
                end
            | _ => Some (whole, rest)
            end
          else None
      | _, _, _ => None
      end
  | _ => None
  end%char.

(** The offset from UTC in microseconds, when there is one. *)
Definition utc_offset (s : list ascii) : option (option Z) :=
  let hhmm (sign : Z) h1 h2 m1 m2 :=
    match two h1 h2, two m1 m2 with
    | Some h, Some m =>
        if ((h <=? 23) && (m <=? 59))%Z
        then Some (Some (sign * (h * 60 + m) * 60 * 1000000)%Z) else None
    | _, _ => None
    end in
  match s with
  | [] => Some None
  | ["Z"] => Some (Some 0%Z)
  | ["+"; h1; h2; ":"; m1; m2] => hhmm 1%Z h1 h2 m1 m2
  | ["-"; h1; h2; ":"; m1; m2] => hhmm (-1)%Z h1 h2 m1 m2
  | ["+"; h1; h2; m1; m2] => hhmm 1%Z h1 h2 m1 m2
  | ["-"; h1; h2; m1; m2] => hhmm (-1)%Z h1 h2 m1 m2
  | _ => None
  end%char.

(** [datetime.fromisoformat] *)
Definition fromisoformat (s : string) : option datetime :=
  match date (String.list_ascii_of_string s) with
  | Some (days, []) => Some {| dt_aware := false; dt_micros := days * 86400000000 |}
  | Some (days, _ :: rest) =>
      match time_of_day rest with
      | Some (micros, rest') =>
          match utc_offset rest' with
          | Some None =>
              Some {| dt_aware := false; dt_micros := days * 86400000000 + micros |}
          | Some (Some offset) =>
              Some {| dt_aware := true;
                      dt_micros := days * 86400000000 + micros - offset |}
          | None => None
          end
      | None => None
      end
  | None => None
  end%Z.

(** An order for [list(s)]: the one of [elements]. *)
Definition set_elements : set_order :=
  {| set_to_list := elements; set_to_list_elem := λ s x, elem_of_elements s x |}.

(** Another one: the same backwards. *)
Definition set_elements_backwards : set_order :=
  {| set_to_list := λ s, reverse (elements s);
     set_to_list_elem := λ s x,
       iff_trans (elem_of_reverse _ _) (elem_of_elements _ _) |}.

End Lib.

(** ** Sample pages *)

Module Sample.

(** A line and its line end. *)
Definition nl (s : string) : string := s +:+ String LF EmptyString.

Definition id_prefix : string := "https://git.catma.de/project/collection/annotations/".

(** An annotation as [json.load] returns it: the [id], the timestamp where
    the script looks for it and one more field to tell versions apart. *)
Definition annotation (uuid timestamp unique : string) : json :=
  JObj [("id", JStr (id_prefix +:+ uuid));
        ("body", JObj [("properties", JObj [("system",
           JObj [(CATMA_MARKUPTIMESTAMP_UUID, JArr [JStr timestamp])])])]);
        ("somethingunique", JStr unique)].

(** The same annotation as the text of one line of a page file. *)
Definition annotation_text (uuid timestamp unique : string) : string :=
  "{" +:+ Lib.quote "id" +:+ ": " +:+ Lib.quote (id_prefix +:+ uuid) +:+ ", "
  +:+ Lib.quote "body" +:+ ": {" +:+ Lib.quote "properties" +:+ ": {"
  +:+ Lib.quote "system" +:+ ": {" +:+ Lib.quote CATMA_MARKUPTIMESTAMP_UUID
  +:+ ": [" +:+ Lib.quote timestamp +:+ "]}}}, "
  +:+ Lib.quote "somethingunique" +:+ ": " +:+ Lib.quote unique +:+ "}".

Definition id1 : string := "CATMA_11111111-1111-1111-1111-111111111111".
Definition id2 : string := "CATMA_22222222-2222-2222-2222-222222222222".
Definition id3 : string := "CATMA_33333333-3333-3333-3333-333333333333".
Definition id4 : string := "CATMA_44444444-4444-4444-4444-444444444444".
Definition id5 : string := "CATMA_EC4AAAB3-A65D-43E7-A966-67CDE70E636A".

Definition t1 : string := "2023-05-02T10:00:00.000+0200".
Definition t2 : string := "2023-05-02T11:00:00.000+0200".
Definition t3 : string := "2023-05-02T12:00:00.000+0200".
Definition t4 : string := "2023-05-02T13:00:00.000+0200".
Definition t5 : string := "2023-05-02T14:00:00.000+0200".

(** Three records of one instant. *)
Definition A : json := annotation id1 t1 "A".
Definition B : json := annotation id2 t1 "B".
Definition C : json := annotation id3 t1 "C".

(** A later record. *)
Definition D : json := annotation id4 t2 "D".

Definition first : json := annotation id1 t1 "first".
Definition second : json := annotation id2 t3 "second".
Definition third : json := annotation id3 t2 "third".
Definition fourth : json := annotation id4 t4 "fourth".
Definition fifth_1 : json := annotation id5 t5 "fifth-1".
Definition fifth_2 : json := annotation id5 t5 "fifth-2".

(** A page on which each side has added an annotation and both have
    changed the last one. *)
Definition conflicted_page : string :=
  nl "["
  +:+ nl (annotation_text id1 t1 "first" +:+ ",")
  +:+ nl "<<<<<<< HEAD"
  +:+ nl (annotation_text id2 t3 "second" +:+ ",")
  +:+ nl "======="
  +:+ nl (annotation_text id3 t2 "third" +:+ ",")
  +:+ nl ">>>>>>> master"
  +:+ nl (annotation_text id4 t4 "fourth" +:+ ",")
  +:+ nl "<<<<<<< HEAD"
  +:+ nl (annotation_text id5 t5 "fifth-1")
  +:+ nl "======="
  +:+ nl (annotation_text id5 t5 "fifth-2")
  +:+ nl ">>>>>>> master"
  +:+ nl "]".

(** A page without a conflict. *)
Definition unconflicted_page : string := nl "[]".

(** A page whose conflict is never closed. *)
Definition truncated_page : string := nl "<<<<<<< HEAD" +:+ nl "[]".

(** A page whose conflict is closed before it is divided. *)
Definition misordered_page : string := nl "<<<<<<< HEAD" +:+ nl ">>>>>>> master".

(** A page whose side of theirs is not JSON. *)
Definition broken_page : string :=
  nl "<<<<<<< HEAD" +:+ nl "[]" +:+ nl "=======" +:+ nl "[" +:+ nl ">>>>>>> master".

(** The world before a run: the page file and nothing printed. *)
Definition world_with (page : string) : world :=
  {| files := {["conflicted_page.json" := page]}; stdout := [] |}.

(** [resolve("conflicted_page.json")] with the library of [Lib]. *)
Definition run (page : string) : world * outcome () :=
  resolve Lib.json_loads Lib.json_dumps Lib.fromisoformat Lib.set_elements
          "conflicted_page.json" (world_with page).

End Sample.

(** ** Pages with conflicts, for the statements about the marker scan *)

(** A line that begins with none of the three markers. *)
Definition plain (line : string) : Prop :=
  startswith line HEAD_MARKER = false
  ∧ startswith line SEPARATOR = false
  ∧ startswith line MASTER_MARKER = false.

(** One conflict and the lines that both sides share in front of it. *)
Record block : Type := {
  b_before : list string;
  b_head : string;
  b_ours : list string;
  b_sep : string;
  b_theirs : list string;
  b_end : string
}.

Definition block_lines (b : block) : list string :=
  b_before b ++ [b_head b] ++ b_ours b ++ [b_sep b] ++ b_theirs b ++ [b_end b].

(** The three marker lines begin with their markers, no other line of the
    block begins with a marker. *)
Definition wf_block (b : block) : Prop :=
  Forall plain (b_before b)
  ∧ startswith (b_head b) HEAD_MARKER = true
  ∧ Forall plain (b_ours b)
  ∧ startswith (b_sep b) SEPARATOR = true
  ∧ Forall plain (b_theirs b)
  ∧ startswith (b_end b) MASTER_MARKER = true.

(** The lines of a page: its blocks and the lines behind the last one. *)
Definition page_lines (bs : list block) (after : list string) : list string :=
  concat (block_lines <$> bs) ++ after.

(** The lines of the two versions the page was made of. *)
Definition ours_of (bs : list block) (after : list string) : list string :=
  concat ((λ b, b_before b ++ b_ours b) <$> bs) ++ after.

Definition theirs_of (bs : list block) (after : list string) : list string :=
  concat ((λ b, b_before b ++ b_theirs b) <$> bs) ++ after.

(** The conflict tuple the scan records for a block that begins at line
    index [i]. *)
Definition conflict_at (i : nat) (b : block) : conflict :=
  let h := i + length (b_before b) in
  (Some (h + 1), Some (h + 1 + length (b_ours b)),
   Some (h + 1 + length (b_ours b) + 1),
   Some (h + 1 + length (b_ours b) + 1 + length (b_theirs b))).

Fixpoint conflicts_from (i : nat) (bs : list block) : list conflict :=
  match bs with
  | [] => []
  | b :: bs' => conflict_at i b :: conflicts_from (i + length (block_lines b)) bs'
  end.

(** The indexes of the shared lines in front of each block. *)
Fixpoint idxs_from (i : nat) (bs : list block) : list nat :=
  match bs with
  | [] => []
  | b :: bs' => seq i (length (b_before b)) ++ idxs_from (i + length (block_lines b)) bs'
  end.

(** What line 99 adds to the two files for blocks whose shared lines are in
    the deque: the shared lines character by character, then the side. *)
Definition spliced (side : block → list string) (bs : list block) : list string :=
  concat ((λ b, flat_map chars (b_before b) ++ side b) <$> bs).

(** Whether the keys of every dict inside [j] are pairwise distinct, as
    they are in every value that [json.load] returns. *)
Fixpoint unique_keys (j : json) : bool :=
  match j with
  | JArr l => forallb unique_keys l
  | JObj kvs =>
      bool_decide (NoDup kvs.*1) && forallb (λ '(k, v), unique_keys v) kvs
  | _ => true
  end.

(** A path that is a bare name: it has no separator in it (no slash and
    no backslash, the character 092), so that it names an entry of the
    working directory, as the three names do that lines 109, 110 and 170
    open. *)
Fixpoint bare_name (path : string) : bool :=
  match path with
  | EmptyString => true
  | String c rest =>
      negb (Ascii.eqb c "/") && negb (Ascii.eqb c "092") && bare_name rest
  end.

(** A computation that writes no file and only adds lines to the console. *)
Definition only_prints {A : Type} (m : M A) : Prop :=
  ∀ w, files (m w).1 = files w ∧ stdout w `prefix_of` stdout (m w).1.


(** The blocks of [Sample.conflicted_page]. *)
Module SampleBlocks.

Import Sample.

Definition block1 : block := {|
  b_before := [nl "["; nl (annotation_text id1 t1 "first" +:+ ",")];
  b_head := nl "<<<<<<< HEAD";
  b_ours := [nl (annotation_text id2 t3 "second" +:+ ",")];
  b_sep := nl "=======";
  b_theirs := [nl (annotation_text id3 t2 "third" +:+ ",")];
  b_end := nl ">>>>>>> master"
|}.

Definition block2 : block := {|
  b_before := [nl (annotation_text id4 t4 "fourth" +:+ ",")];
  b_head := nl "<<<<<<< HEAD";
  b_ours := [nl (annotation_text id5 t5 "fifth-1")];
  b_sep := nl "=======";
  b_theirs := [nl (annotation_text id5 t5 "fifth-2")];
  b_end := nl ">>>>>>> master"
|}.

Definition last_lines : list string := [nl "]"].

End SampleBlocks.

(** The two sides of [Sample.conflicted_page] as [json.load] returns them,
    and further records and values for the statements below. *)
Module SampleSides.

Import Sample.

Definition ours_side : list json := [first; second; fourth; fifth_1].
Definition theirs_side : list json := [first; third; fourth; fifth_2].

(** The order [tests/test_conflicted_ac_page_resolver.py] asks for. *)
Definition merged_side : list json :=
  [first; third; second; fourth; fifth_1; fifth_2].

(** The world after the warning about the record both sides changed. *)
Definition warned (w : world) : world :=
  {| files := files w; stdout := stdout w ++ [warning_text id5] |}.





(** A record without an [id]. *)
Definition no_id : json := JObj [("somethingunique", JStr "no id")].

(** A record whose timestamp has no offset. *)
Definition naive : json := annotation id2 "2023-05-02T10:00:00.000" "naive".

(** What [Lib.fromisoformat] reads from a timestamp. *)
Definition instant (timestamp : string) : datetime :=
  match Lib.fromisoformat timestamp with
  | Some d => d
  | None => {| dt_aware := false; dt_micros := 0 |}
  end.

(** The state of the marker scan behind the first line of
    [misordered_page]. *)
Definition after_head : scan_state := {|
  ours_start := Some 1;
  ours_end := None;
  theirs_start := None;
  theirs_end := None;
  unconflicted_start_until_idx := Some 0;
  unconflicted_end_from_idx := None;
  unconflicted_line_idxs := [];
  conflicts := [];
  next_expected_marker := "======="
|}.

End SampleSides.

(** * Facts *)

(** ** Facts that need nothing of the library *)

Lemma datetime_le_refl d : datetime_le d d = Ok true.
Proof.
  unfold datetime_le. rewrite Bool.eqb_reflx.
  f_equal. apply Z.leb_le. lia.
Qed.

Lemma obind_Ok {A B : Type} (m : outcome A) (f : A → outcome B) b :
  (x ← m; f x) = Ok b → ∃ a, m = Ok a ∧ f a = Ok b.
Proof. destruct m; simpl; intros; try discriminate. eauto. Qed.

Ltac osimpl := cbn [mbind outcome_bind obind mret outcome_ret].

Lemma list_insert_at_app {A : Type} (seen rest : list A) (x : A) :
  list_insert_at (length seen) x (seen ++ rest) = seen ++ x :: rest.
Proof. unfold list_insert_at. by rewrite take_app_length, drop_app_length. Qed.

(** *** Ids *)

Lemma substring_tail s : ∀ m n,
  m ≤ String.length s → String.length s ≤ m + n →
  ∃ p, s = p +:+ String.substring m n s ∧ String.length p = m
       ∧ String.length (String.substring m n s) = String.length s - m.
Proof.
  induction s as [|c s IH]; intros m n Hm Hn.
  - exists EmptyString. destruct m; [|simpl in Hm; lia]. by destruct n.
  - destruct m as [|m].
    + exists EmptyString. destruct n as [|n]; [simpl in Hn; lia|].
      destruct (IH 0 n) as (p & Hp & Hlen & Hl); [lia|simpl in *; lia|].
      destruct p; [|done].
      change (s = String.substring 0 n s) in Hp.
      change (String.substring 0 (S n) (String c s))
        with (String c (String.substring 0 n s)).
      rewrite <- Hp. by repeat split.
    + destruct (IH m n) as (p & Hp & Hlen & Hl); [simpl in *; lia..|].
      exists (String c p).
      change (String.substring (S m) n (String c s)) with (String.substring m n s).
      change (String c p +:+ String.substring m n s)
        with (String c (p +:+ String.substring m n s)).
      rewrite <- Hp. simpl. rewrite Hlen. done.
Qed.

Lemma str_suffix_spec n s :
  ∃ p, s = p +:+ str_suffix n s
       ∧ String.length (str_suffix n s) = min n (String.length s).
Proof.
  unfold str_suffix.
  destruct (substring_tail s (String.length s - n) n) as (p & Hp & _ & Hl); [lia..|].
  exists p. split; [done|]. lia.
Qed.

Lemma Forall2_elem_of_l {A B : Type} (P : A → B → Prop) l k x :
  Forall2 P l k → x ∈ l → ∃ y, y ∈ k ∧ P x y.
Proof.
  induction 1 as [|a b l k Hab _ IH]; intros Hx; [by apply elem_of_nil in Hx|].
  apply elem_of_cons in Hx as [->|Hx].
  - exists b. split; [left|done].
  - destruct (IH Hx) as (y & Hy & HP). exists y. split; [by right|done].
Qed.

Lemma omap_Ok {A B : Type} (f : A → outcome B) l bs :
  omap f l = Ok bs ↔ Forall2 (λ a b, f a = Ok b) l bs.
Proof.
  split.
  - revert bs. induction l as [|a l IH]; intros bs H.
    + injection H as <-. constructor.
    + cbn [omap] in H. apply obind_Ok in H as (b & Hb & H).
      apply obind_Ok in H as (bs' & Hbs & [= <-]). constructor; auto.
  - induction 1 as [|a b l bs Hab _ IH]; [done|].
    cbn [omap]. rewrite Hab. osimpl. rewrite IH. done.
Qed.

Lemma py_set_Ok ids s :
  py_set ids = Ok s ↔ ∃ l, ids = JStr <$> l ∧ s = list_to_set l.
Proof.
  unfold py_set. split.
  - intros (l & Hl & [= <-])%obind_Ok. exists l. split; [|done].
    apply omap_Ok in Hl. induction Hl as [|k x ids l Hk _ IH]; [done|].
    destruct k; try done. injection Hk as ->. by rewrite fmap_cons, IH.
  - intros (l & -> & ->).
    replace (omap _ (JStr <$> l)) with (Ok (A:=list string) l); [done|].
    symmetry. apply omap_Ok. induction l; constructor; done.
Qed.

Lemma annotation_ids_str annotations l :
  annotation_ids annotations = Ok (JStr <$> l) →
  Forall2 (λ a k, annotation_id a = Ok (JStr k)) annotations l.
Proof.
  intros H%omap_Ok. by apply Forall2_fmap_r in H.
Qed.

Lemma annotation_ids_of_str annotations l :
  Forall2 (λ a k, annotation_id a = Ok (JStr k)) annotations l →
  annotation_ids annotations = Ok (JStr <$> l).
Proof. intros H. apply omap_Ok. by apply Forall2_fmap_r. Qed.

Lemma annotation_ids_has_str_id annotations :
  Forall has_str_id annotations ↔
  ∃ l, annotation_ids annotations = Ok (JStr <$> l).
Proof.
  split.
  - induction 1 as [|a rest [k Hk] _ (l & IH)]; [by exists []|].
    exists (k :: l). unfold annotation_ids in *. cbn [omap].
    by rewrite Hk, IH.
  - intros (l & H%annotation_ids_str).
    induction H as [|a k rest l Hk _ IH]; constructor; [by exists k|done].
Qed.

Lemma annotations_with_id_in_str ids annotations l :
  Forall2 (λ a k, annotation_id a = Ok (JStr k)) annotations l →
  annotations_with_id_in ids annotations
  = Ok (List.filter (λ a, match annotation_id a with
                          | Ok k => key_in k ids
                          | _ => false
                          end) annotations).
Proof.
  induction 1 as [|a k rest l Hk _ IH]; [done|].
  cbn [annotations_with_id_in List.filter]. rewrite Hk, IH. osimpl.
  by destruct (key_in (JStr k) ids).
Qed.

Lemma py_ne_str k k' : py_ne (JStr k) (JStr k') = bool_decide (k ≠ k').
Proof.
  unfold py_ne. cbn [py_eq].
  destruct (String.eqb_spec k k') as [->|Hne].
  - by rewrite bool_decide_false by auto.
  - by rewrite bool_decide_true.
Qed.

Lemma id_absent_from_str ours lo a k :
  Forall2 (λ a k, annotation_id a = Ok (JStr k)) ours lo →
  annotation_id a = Ok (JStr k) →
  id_absent_from ours a = bool_decide (k ∉ lo).
Proof.
  intros Hours Ha. unfold id_absent_from. rewrite Ha.
  induction Hours as [|o ko ours lo Hko _ IH].
  - cbn [forallb]. symmetry. apply bool_decide_true, not_elem_of_nil.
  - cbn [forallb]. rewrite Hko, IH, py_ne_str.
    destruct (decide (k = ko)) as [->|Hne].
    + rewrite (bool_decide_false (ko ≠ ko)) by auto.
      symmetry. apply bool_decide_false. rewrite elem_of_cons. tauto.
    + rewrite (bool_decide_true (k ≠ ko)) by done.
      cbn [andb]. apply bool_decide_ext. rewrite elem_of_cons. tauto.
Qed.

Lemma their_new_annotations_str (E : set_order) ours theirs lo lt :
  Forall2 (λ a k, annotation_id a = Ok (JStr k)) ours lo →
  Forall2 (λ a k, annotation_id a = Ok (JStr k)) theirs lt →
  their_new_annotations E (JStr <$> lo) (JStr <$> lt) theirs
  = Ok (List.filter (id_absent_from ours) theirs).
Proof.
  intros Ho Ht. unfold their_new_annotations, their_new_annotation_ids.
  rewrite (proj2 (py_set_Ok (JStr <$> lt) (list_to_set lt))) by eauto.
  rewrite (proj2 (py_set_Ok (JStr <$> lo) (list_to_set lo))) by eauto.
  osimpl. rewrite (annotations_with_id_in_str _ _ lt) by done.
  f_equal. apply List.filter_ext_in.
  intros a Ha%list_elem_of_In.
  destruct (Forall2_elem_of_l _ _ _ _ Ht Ha) as (k & Hk & Hid).
  rewrite Hid, (id_absent_from_str ours lo a k) by done.
  cbn [key_in]. apply bool_decide_ext.
  rewrite set_to_list_elem, elem_of_difference, !elem_of_list_to_set. tauto.
Qed.

(** *** The mismatch check *)

Lemma emit_nil w : emit [] w = w.
Proof. destruct w. unfold emit. simpl. by rewrite app_nil_r. Qed.

Lemma emit_emit l1 l2 w : emit l2 (emit l1 w) = emit (l1 ++ l2) w.
Proof. unfold emit. simpl. by rewrite (assoc_L (++)). Qed.

Lemma M_bind_lift_Ok {A B : Type} (a : A) (f : A → M B) w :
  (x ← lift (Ok a); f x) w = f a w.
Proof. reflexivity. Qed.


Lemma M_bind_lift_inv {A B : Type} (o : outcome A) (f : A → M B) w w' b :
  (x ← lift o; f x) w = (w', Ok b) → ∃ a, o = Ok a ∧ f a w = (w', Ok b).
Proof.
  destruct o as [a| |]; [by exists a|..];
    unfold mbind, M_bind, lift; intros [= _ ?]; done.
Qed.

Lemma mismatched_with_cons a b rest :
  mismatched_with a (b :: rest)
  = if match annotation_id b, annotation_id a with
       | Ok kb, Ok ka => py_eq kb ka && py_ne b a
       | _, _ => false
       end
    then b :: mismatched_with a rest else mismatched_with a rest.
Proof. reflexivity. Qed.

Lemma compare_with_theirs_str a k theirs : ∀ acc w,
  annotation_id a = Ok (JStr k) → Forall has_str_id theirs →
  compare_with_theirs a theirs acc w
  = (emit ((λ _, warning_text k) <$> mismatched_with a theirs) w,
     Ok (acc ++ mismatched_with a theirs)).
Proof.
  intros acc w Ha Hth. revert acc w.
  induction Hth as [|b rest [kb Hb] _ IH]; intros acc w.
  - cbn. by rewrite emit_nil, app_nil_r.
  - cbn [compare_with_theirs].
    rewrite mismatched_with_cons, Hb, M_bind_lift_Ok, Ha, M_bind_lift_Ok.
    unfold py_ne at 1. destruct (py_eq (JStr kb) (JStr k)); cbn [negb andb]; [|apply IH].
    destruct (py_ne b a); [|apply IH].
    rewrite M_bind_lift_Ok. cbn [mismatch_warning]. rewrite M_bind_lift_Ok.
    unfold mbind at 1, M_bind at 1, print at 1.
    rewrite IH, fmap_cons. f_equal.
    + change {| files := files w; stdout := stdout w ++ [warning_text k] |}
        with (emit [warning_text k] w).
      by rewrite emit_emit.
    + by rewrite <- (assoc_L (++)).
Qed.

Lemma check_shared_str both ours theirs : ∀ acc w,
  Forall has_str_id ours → Forall has_str_id theirs →
  check_shared both ours theirs acc w
  = (emit ((λ kb, warning_text kb.1) <$> shared_mismatches both ours theirs) w,
     Ok (acc ++ (snd <$> shared_mismatches both ours theirs))).
Proof.
  intros acc w Ho Hth. revert acc w.
  induction Ho as [|a rest [k Ha] _ IH]; intros acc w.
  - cbn. by rewrite emit_nil, app_nil_r.
  - cbn [check_shared]. rewrite Ha, M_bind_lift_Ok.
    unfold shared_mismatches. cbn [flat_map]. rewrite Ha.
    fold (shared_mismatches both rest theirs).
    cbn [key_in]. destruct (bool_decide (k ∈ both)); cbn [negb].
    + unfold mbind at 1, M_bind at 1.
      rewrite (compare_with_theirs_str a k) by done.
      rewrite IH, emit_emit, !fmap_app, <- !list_fmap_compose.
      rewrite (assoc_L (++)). do 4 f_equal.
      symmetry. apply (list_fmap_id (mismatched_with a theirs)).
    + cbn [app]. apply IH.
Qed.

Lemma shared_mismatches_subseteq both ours theirs b :
  b ∈ snd <$> shared_mismatches both ours theirs → b ∈ theirs.
Proof.
  intros ([k b'] & -> & H)%list_elem_of_fmap.
  unfold shared_mismatches in H.
  apply list_elem_of_In, in_flat_map in H as (a & _ & H).
  destruct (annotation_id a) as [[]| |]; try done.
  destruct (bool_decide _); [|done].
  apply list_elem_of_In, list_elem_of_fmap in H as (b & [= _ ->] & H).
  unfold mismatched_with in H.
  by apply list_elem_of_In, filter_In in H as [H%list_elem_of_In _].
Qed.

Lemma shared_mismatches_elem_of both ours theirs a b k :
  a ∈ ours → b ∈ theirs → k ∈ both →
  annotation_id a = Ok (JStr k) → annotation_id b = Ok (JStr k) →
  py_ne b a = true → (k, b) ∈ shared_mismatches both ours theirs.
Proof.
  intros Ha Hb Hk Hida Hidb Hne.
  apply list_elem_of_In, in_flat_map. exists a. split; [by apply list_elem_of_In|].
  rewrite Hida, bool_decide_true by done.
  apply list_elem_of_In, list_elem_of_fmap. exists b. split; [done|].
  apply list_elem_of_In, filter_In. split; [by apply list_elem_of_In|].
  rewrite Hidb, Hida, Hne. cbn [py_eq]. by rewrite String.eqb_refl.
Qed.

Lemma has_str_id_Forall2 l :
  Forall has_str_id l → ∃ ks, Forall2 (λ a k, annotation_id a = Ok (JStr k)) l ks.
Proof.
  intros (ks & H)%annotation_ids_has_str_id. exists ks. by apply annotation_ids_str.
Qed.

(** *** No step but the insertion loop counts iterations *)

Lemma no_oof_lift {A : Type} (o : outcome A) : o ≠ OutOfFuel → no_oof (lift o).
Proof. intros H w. done. Qed.

Lemma no_oof_bind {A B : Type} (m : M A) (f : A → M B) :
  no_oof m → (∀ a, no_oof (f a)) → no_oof (m ≫= f).
Proof.
  intros Hm Hf w. unfold mbind, M_bind. specialize (Hm w).
  destruct (m w) as [w' [a| |]]; [apply Hf|done..].
Qed.

Lemma obind_never_out_of_fuel {A B : Type} (m : outcome A) (f : A → outcome B) :
  m ≠ OutOfFuel → (∀ a, f a ≠ OutOfFuel) → (x ← m; f x) ≠ OutOfFuel.
Proof. intros Hm Hf. destruct m; osimpl; auto. Qed.

Lemma omap_never_out_of_fuel {A B : Type} (f : A → outcome B) l :
  (∀ a, f a ≠ OutOfFuel) → omap f l ≠ OutOfFuel.
Proof.
  intros Hf. induction l as [|a l IH]; [done|]. cbn [omap].
  apply obind_never_out_of_fuel; [done|]. intros b.
  by apply obind_never_out_of_fuel.
Qed.

Lemma getitem_str_never_out_of_fuel j k : getitem_str j k ≠ OutOfFuel.
Proof. destruct j; simpl; try done. by destruct (assoc k kvs). Qed.

Lemma annotation_id_never_out_of_fuel a : annotation_id a ≠ OutOfFuel.
Proof.
  unfold annotation_id.
  apply obind_never_out_of_fuel; [apply getitem_str_never_out_of_fuel|].
  by intros [].
Qed.

Lemma py_set_never_out_of_fuel ids : py_set ids ≠ OutOfFuel.
Proof.
  unfold py_set. apply obind_never_out_of_fuel; [|done].
  apply omap_never_out_of_fuel. by intros [].
Qed.

Lemma annotations_with_id_in_never_out_of_fuel ids l :
  annotations_with_id_in ids l ≠ OutOfFuel.
Proof.
  induction l as [|a l IH]; [done|]. cbn [annotations_with_id_in].
  apply obind_never_out_of_fuel; [apply annotation_id_never_out_of_fuel|].
  intros k. by apply obind_never_out_of_fuel.
Qed.

Lemma compare_with_theirs_never_out_of_fuel a theirs :
  ∀ acc, no_oof (compare_with_theirs a theirs acc).
Proof.
  induction theirs as [|b rest IH]; intros acc; [done|].
  cbn [compare_with_theirs].
  apply no_oof_bind; [apply no_oof_lift, annotation_id_never_out_of_fuel|]. intros tid.
  apply no_oof_bind; [apply no_oof_lift, annotation_id_never_out_of_fuel|]. intros oid.
  destruct (py_ne tid oid); [apply IH|].
  destruct (py_ne b a); [|apply IH].
  apply no_oof_bind; [apply no_oof_lift, annotation_id_never_out_of_fuel|]. intros k.
  apply no_oof_bind; [apply no_oof_lift; by destruct k|]. intros msg.
  apply no_oof_bind; [done|]. intros _. apply IH.
Qed.

Lemma check_shared_never_out_of_fuel both ours theirs :
  ∀ acc, no_oof (check_shared both ours theirs acc).
Proof.
  induction ours as [|a rest IH]; intros acc; [done|].
  cbn [check_shared].
  apply no_oof_bind; [apply no_oof_lift, annotation_id_never_out_of_fuel|]. intros oid.
  destruct (negb _); [apply IH|].
  apply no_oof_bind; [apply compare_with_theirs_never_out_of_fuel|]. intros acc'. apply IH.
Qed.

Lemma scan_lines_never_out_of_fuel lines : ∀ st idx,
  scan_lines st idx lines ≠ OutOfFuel.
Proof.
  induction lines as [|line rest IH]; intros st idx; [done|].
  cbn [scan_lines]. apply obind_never_out_of_fuel; [|intros; apply IH].
  unfold scan_line. repeat (destruct (_ && _); [done|]). done.
Qed.

Lemma drain_never_out_of_fuel lines idxs bound : ∀ ours theirs,
  drain lines idxs bound ours theirs ≠ OutOfFuel.
Proof.
  induction idxs as [|i idxs IH]; intros ours theirs; [done|].
  cbn [drain]. destruct (i <? bound); [|done].
  destruct (lines !! i); [apply IH|done].
Qed.

Lemma splice_never_out_of_fuel lines cs : ∀ idxs ours theirs,
  splice lines cs idxs ours theirs ≠ OutOfFuel.
Proof.
  induction cs as [|[[[c0 c1] c2] c3] cs IH]; intros idxs ours theirs; [done|].
  cbn [splice]. apply obind_never_out_of_fuel.
  - destruct idxs; [done|]. destruct c0; [apply drain_never_out_of_fuel|done].
  - intros [[idxs' ours'] theirs']. apply IH.
Qed.

Lemma split_sides_never_out_of_fuel lines : split_sides lines ≠ OutOfFuel.
Proof.
  unfold split_sides.
  apply obind_never_out_of_fuel; [apply scan_lines_never_out_of_fuel|].
  intros st. unfold rebuild.
  apply obind_never_out_of_fuel; [apply splice_never_out_of_fuel|]. by intros [].
Qed.

(** *** The order of [list(set)] does not show *)





(** *** Pages without a marker *)

(** A line that begins with none of the three markers leaves the state of
    the scan as it is. *)
Lemma scan_line_plain st idx line :
  startswith line HEAD_MARKER = false →
  startswith line SEPARATOR = false →
  startswith line MASTER_MARKER = false →
  scan_line st idx line = Ok st.
Proof. intros H1 H2 H3. unfold scan_line. by rewrite H1, H2, H3. Qed.

(** Without a marker line the two slices of lines 97 and 106 are both the
    whole file. *)
Lemma split_sides_without_markers lines :
  Forall (λ line, startswith line HEAD_MARKER = false
                  ∧ startswith line SEPARATOR = false
                  ∧ startswith line MASTER_MARKER = false) lines →
  split_sides lines = Ok (lines ++ lines, lines ++ lines).
Proof.
  intros H. unfold split_sides.
  assert (Hscan : ∀ idx, scan_lines scan_init idx lines = Ok scan_init).
  { induction H as [|line rest (H1 & H2 & H3) _ IH]; intros idx; [done|].
    cbn [scan_lines]. rewrite scan_line_plain by done. osimpl. apply IH. }
  rewrite Hscan. osimpl. unfold rebuild. cbn. by rewrite drop_0.
Qed.

(** C8: once the ids of both collections have been computed, line 125
    returns a list exactly when every id is a str, and the list is then
    the records of theirs whose id is the id of no record of ours, in the
    order they have in theirs; an id that is a str is the last 42
    characters of the [id] field, or all of it when it is shorter. *)
Theorem new_records_are_theirs_absent_from_ours (E : set_order) ours theirs our_ids their_ids :
  annotation_ids ours = Ok our_ids →
  annotation_ids theirs = Ok their_ids →
  (∀ new, their_new_annotations E our_ids their_ids theirs = Ok new
          ↔ Forall has_str_id (ours ++ theirs)
            ∧ new = List.filter (id_absent_from ours) theirs)
  ∧ (∀ a k, annotation_id a = Ok (JStr k) →
       ∃ s p, getitem_str a "id" = Ok (JStr s) ∧ s = p +:+ k
              ∧ String.length k = min 42 (String.length s)).
Proof.
  intros Hio Hit. split.
  - intros new. split.
    + intros Hnew.
      assert (∃ lo lt, our_ids = JStr <$> lo ∧ their_ids = JStr <$> lt)
        as (lo & lt & -> & ->).
      { unfold their_new_annotations, their_new_annotation_ids in Hnew.
        apply obind_Ok in Hnew as (ids & Hids & _).
        apply obind_Ok in Hids as (st & (lt & -> & _)%py_set_Ok & Hids).
        apply obind_Ok in Hids as (so & (lo & -> & _)%py_set_Ok & _). eauto. }
      split.
      * apply Forall_app. split; apply annotation_ids_has_str_id; eauto.
      * rewrite (their_new_annotations_str E ours theirs lo lt) in Hnew
          by by apply annotation_ids_str.
        by injection Hnew.
    + intros [[Ho Ht]%Forall_app ->].
      destruct (has_str_id_Forall2 _ Ho) as [lo Hlo].
      destruct (has_str_id_Forall2 _ Ht) as [lt Hlt].
      assert (our_ids = JStr <$> lo) as ->.
      { apply annotation_ids_of_str in Hlo. congruence. }
      assert (their_ids = JStr <$> lt) as ->.
      { apply annotation_ids_of_str in Hlt. congruence. }
      by apply their_new_annotations_str.
  - intros a k. unfold annotation_id.
    intros (v & Hv & Hk)%obind_Ok.
    destruct v; try done. injection Hk as <-.
    destruct (str_suffix_spec 42 s) as (p & Hp & Hlen).
    exists s, p. done.
Qed.

(** ** Facts about the insertion, for any [fromisoformat] *)

Section ResolverFacts.

Variable fromisoformat : string → option datetime.

Local Abbreviation markup_timestamp := (markup_timestamp fromisoformat).
Local Abbreviation scan := (scan fromisoformat).
Local Abbreviation add_annotation := (add_annotation fromisoformat).
Local Abbreviation add_annotations := (add_annotations fromisoformat).
Local Abbreviation merge_annotations := (merge_annotations fromisoformat).
Local Abbreviation merge_pages := (merge_pages fromisoformat).
Local Abbreviation place := (place fromisoformat).
Local Abbreviation ts_leb := (ts_leb fromisoformat).
Local Abbreviation ts_le := (ts_le fromisoformat).
Local Abbreviation ascending := (ascending fromisoformat).
Local Abbreviation has_timestamp := (has_timestamp fromisoformat).
Local Abbreviation insert_after_ties := (insert_after_ties fromisoformat).

Lemma scan_unfold fuel l r idx was_added :
  scan (S fuel) l r idx was_added =
  match l !! idx with
  | None => Ok (l, was_added)
  | Some our_annotation =>
      t_ours ← markup_timestamp our_annotation;
      t_theirs ← markup_timestamp r;
      le ← datetime_le t_ours t_theirs;
      if le : bool then Ok (list_insert_at idx r l, true)
      else if idx =? length l - 1 then scan fuel (l ++ [r]) r (idx + 1) true
           else scan fuel l r (idx + 1) was_added
  end.
Proof. reflexivity. Qed.

Lemma scan_place rest : ∀ seen r was_added fuel,
  rest ≠ [] → length rest + 1 ≤ fuel →
  scan fuel (seen ++ rest) r (length seen) was_added
  = (l ← place rest r; Ok (seen ++ l, true)).
Proof.
  induction rest as [|e rest IH]; intros seen r wa fuel Hne Hfuel; [done|].
  destruct fuel as [|fuel]; [simpl in Hfuel; lia|].
  rewrite scan_unfold, lookup_app_r, Nat.sub_diag by lia.
  cbn [lookup list_lookup place].
  destruct (markup_timestamp e) as [te| |]; osimpl; [|done..].
  destruct (markup_timestamp r) as [tr| |] eqn:Hr; osimpl; [|done..].
  destruct (datetime_le te tr) as [[|]| |]; osimpl; [| |done..].
  - by rewrite list_insert_at_app.
  - 
    destruct rest as [|e' rest].
    + replace (length seen =? length (seen ++ [e]) - 1) with true
        by (symmetry; apply Nat.eqb_eq; rewrite length_app; simpl; lia).
      simpl in Hfuel. destruct fuel as [|fuel]; [lia|].
      rewrite scan_unfold.
      replace (length seen + 1) with (length (seen ++ [e]) + 0)
        by (rewrite length_app; simpl; lia).
      rewrite lookup_app_r by lia.
      replace (length (seen ++ [e]) + 0 - length (seen ++ [e])) with 0 by lia.
      cbn [lookup list_lookup place]. rewrite Hr. osimpl.
      rewrite datetime_le_refl. osimpl.
      rewrite Nat.add_0_r, list_insert_at_app.
      by rewrite <- (assoc_L (++)).
    + replace (length seen =? length (seen ++ e :: e' :: rest) - 1) with false
        by (symmetry; apply Nat.eqb_neq; rewrite length_app; simpl; lia).
      specialize (IH (seen ++ [e]) r wa fuel).
      rewrite length_app in IH. cbn [length] in IH.
      rewrite <- (assoc_L (++)) in IH. cbn [app] in IH.
      rewrite IH by (simpl in *; done || lia).
      destruct (place (e' :: rest) r); osimpl; try done.
      by rewrite <- (assoc_L (++)).
Qed.

(** The loop body is [place] on a list that is not empty, and the
    [raise] of line 164 on the empty list. *)
Lemma add_annotation_place w r :
  w ≠ [] → add_annotation w r = place w r.
Proof.
  intros Hne. unfold add_annotation.
  rewrite (scan_place w [] r false) by (done || lia).
  by destruct (place w r).
Qed.

Lemma add_annotation_nil r :
  add_annotation [] r = Raise (RaisedStr "Failed to add annotation").
Proof. reflexivity. Qed.

(** *** Order facts *)

Lemma datetime_le_trans a b c :
  datetime_le a b = Ok true → datetime_le b c = Ok true → datetime_le a c = Ok true.
Proof.
  unfold datetime_le.
  destruct (dt_aware a), (dt_aware b), (dt_aware c); simpl; try done;
    intros [= H1%Z.leb_le] [= H2%Z.leb_le]; f_equal; apply Z.leb_le; lia.
Qed.

Lemma datetime_le_false_flip a b :
  datetime_le a b = Ok false → datetime_le b a = Ok true.
Proof.
  unfold datetime_le.
  destruct (dt_aware a), (dt_aware b); simpl; try done;
    intros [= H1%Z.leb_gt]; f_equal; apply Z.leb_le; lia.
Qed.

Lemma ts_le_leb a b : ts_le a b ↔ ts_leb a b = true.
Proof.
  unfold ts_le, ts_leb. split.
  - intros (ta & tb & -> & -> & ->). done.
  - destruct (markup_timestamp a) as [ta| |]; try done.
    destruct (markup_timestamp b) as [tb| |]; try done.
    destruct (datetime_le ta tb) as [[|]| |] eqn:Hle; try done.
    intros _. by exists ta, tb.
Qed.

#[local] Instance ts_le_trans : Transitive ts_le.
Proof.
  intros a b c (ta & tb & Ha & Hb & Hab) (tb' & tc & Hb' & Hc & Hbc).
  rewrite Hb in Hb'. injection Hb' as <-.
  exists ta, tc. eauto using datetime_le_trans.
Qed.

#[local] Instance flip_ts_le_trans : Transitive (flip ts_le).
Proof. intros a b c H1 H2. unfold flip in *. by etrans. Qed.

Lemma ts_le_refl_of a d : markup_timestamp a = Ok d → ts_le a a.
Proof. intros H. exists d, d. eauto using datetime_le_refl. Qed.

(** *** What [place] returns *)

Lemma place_inv e w r l :
  place (e :: w) r = Ok l →
  ∃ te tr, markup_timestamp e = Ok te ∧ markup_timestamp r = Ok tr ∧
    ((datetime_le te tr = Ok true ∧ l = r :: e :: w) ∨
     (datetime_le te tr = Ok false ∧ ∃ l', place w r = Ok l' ∧ l = e :: l')).
Proof.
  cbn [place]. intros H.
  apply obind_Ok in H as (te & Hte & H).
  apply obind_Ok in H as (tr & Htr & H).
  apply obind_Ok in H as ([|] & Hle & H); exists te, tr; repeat split; try done.
  - left. by injection H as <-.
  - right. split; [done|].
    apply obind_Ok in H as (l' & Hl' & H). injection H as <-. eauto.
Qed.

Lemma place_head w r l :
  place w r = Ok l → ∃ x l', l = x :: l' ∧ (x = r ∨ head w = Some x).
Proof.
  destruct w as [|e w].
  - intros [= <-]. eauto.
  - intros (te & tr & _ & _ & [[_ ->]|[_ (l' & _ & ->)]])%place_inv; eauto.
Qed.

Lemma place_sorted w : ∀ r tr l,
  markup_timestamp r = Ok tr →
  Sorted (flip ts_le) w → place w r = Ok l → Sorted (flip ts_le) l.
Proof.
  induction w as [|e w IH]; intros r tr l Hr Hs Hp.
  - injection Hp as <-. repeat constructor. by eapply ts_le_refl_of.
  - apply place_inv in Hp as (te & tr' & Hte & Htr & [[Hle ->]|[Hle (l' & Hp & ->)]]).
    + constructor; [done|]. constructor. exists te, tr'. eauto.
    + apply Sorted_inv in Hs as [Hs Hhd].
      constructor; [by eapply IH|].
      destruct (place_head _ _ _ Hp) as (x & l'' & -> & [->|Hx]).
      * constructor. exists tr', te. eauto using datetime_le_false_flip.
      * destruct w as [|e' w]; [done|]. injection Hx as ->.
        constructor. by apply HdRel_inv in Hhd.
Qed.

Lemma place_elem_of w : ∀ r l,
  place w r = Ok l → ∀ x, x ∈ l ↔ x = r ∨ x ∈ w.
Proof.
  induction w as [|e w IH]; intros r l Hp x.
  - injection Hp as <-. rewrite !elem_of_cons, elem_of_nil. tauto.
  - apply place_inv in Hp as (te & tr' & Hte & Htr & [[Hle ->]|[Hle (l' & Hp & ->)]]).
    + by rewrite elem_of_cons.
    + specialize (IH _ _ Hp x). rewrite !elem_of_cons, IH. tauto.
Qed.

Lemma place_total aware w : ∀ r,
  Forall (has_timestamp aware) w → has_timestamp aware r → ∃ l, place w r = Ok l.
Proof.
  induction w as [|e w IH]; intros r Hw Hr; [by eexists|].
  apply Forall_cons in Hw as [(te & Hte & Hae) Hw].
  destruct (IH r Hw Hr) as [l' Hl'].
  destruct Hr as (tr & Htr & Har).
  cbn [place]. rewrite Hte, Htr. osimpl.
  unfold datetime_le. rewrite Hae, Har, Bool.eqb_reflx. osimpl.
  destruct (dt_micros te <=? dt_micros tr)%Z; [by eexists|].
  rewrite Hl'. by eexists.
Qed.

Lemma place_never_out_of_fuel w r : place w r ≠ OutOfFuel.
Proof.
  assert (Hg : ∀ j k, getitem_str j k ≠ OutOfFuel).
  { intros [] k; simpl; try done. by destruct (assoc k kvs). }
  assert (Ht : ∀ a, markup_timestamp a ≠ OutOfFuel).
  { intros a. unfold markup_timestamp.
    repeat match goal with
    | |- (_ ← getitem_str ?j ?k; _) ≠ _ =>
        let H := fresh in
        destruct (getitem_str j k) eqn:H; osimpl; [|done|by apply Hg in H]
    end.
    match goal with
    | |- (_ ← getitem_0 ?j; _) ≠ _ =>
        destruct (getitem_0 j) as [[]| |] eqn:Hv; osimpl; try done;
        [by destruct (fromisoformat _)|by destruct j as [| | |[]|[]|]]
    end. }
  induction w as [|e w IH]; [done|]. cbn [place].
  destruct (markup_timestamp e) eqn:He; osimpl; [|done|by apply Ht in He].
  destruct (markup_timestamp r) eqn:Hr; osimpl; [|done|by apply Ht in Hr].
  unfold datetime_le. destruct (Bool.eqb _ _); osimpl; [|done].
  destruct (_ <=? _)%Z; [done|].
  by destruct (place w r).
Qed.

(** *** The loop over their new annotations *)

Lemma add_annotations_cons w r rs :
  w ≠ [] → add_annotations w (r :: rs) = (l ← place w r; add_annotations l rs).
Proof. intros Hw. cbn [add_annotations]. by rewrite add_annotation_place. Qed.

Lemma add_annotations_cons_inv w r rs l :
  add_annotations w (r :: rs) = Ok l →
  ∃ e w' l1, w = e :: w' ∧ place w r = Ok l1 ∧ add_annotations l1 rs = Ok l.
Proof.
  destruct w as [|e w']; [done|].
  rewrite add_annotations_cons by done.
  intros (l1 & Hl1 & H)%obind_Ok. eauto 6.
Qed.

(** The insertion loop always comes to an end. *)
Lemma scan_fuel_enough w new : add_annotations w new ≠ OutOfFuel.
Proof.
  revert w. induction new as [|r rs IH]; intros w; [done|].
  destruct w as [|e w]; [done|].
  rewrite add_annotations_cons by done.
  destruct (place (e :: w) r) eqn:Hp; osimpl; [apply IH|done|].
  by apply place_never_out_of_fuel in Hp.
Qed.

Lemma add_annotations_sorted new : ∀ w l,
  Sorted (flip ts_le) w → add_annotations w new = Ok l → Sorted (flip ts_le) l.
Proof.
  induction new as [|r rs IH]; intros w l Hs H.
  - by injection H as <-.
  - apply add_annotations_cons_inv in H as (e & w' & l1 & -> & Hp & H).
    destruct (place_inv _ _ _ _ Hp) as (_ & tr & _ & Htr & _).
    eapply IH; [|done]. by eapply place_sorted.
Qed.

Lemma add_annotations_elem_of new : ∀ w l,
  add_annotations w new = Ok l → ∀ x, x ∈ l ↔ x ∈ w ∨ x ∈ new.
Proof.
  induction new as [|r rs IH]; intros w l H x.
  - injection H as <-. rewrite elem_of_nil. tauto.
  - apply add_annotations_cons_inv in H as (e & w' & l1 & -> & Hp & H).
    rewrite (IH _ _ H), (place_elem_of _ _ _ Hp), !elem_of_cons. tauto.
Qed.

Lemma add_annotations_total aware new : ∀ w,
  Forall (has_timestamp aware) w → Forall (has_timestamp aware) new →
  w ≠ [] ∨ new = [] → ∃ l, add_annotations w new = Ok l.
Proof.
  induction new as [|r rs IH]; intros w Hw Hnew Hne; [by eexists|].
  destruct Hne as [Hne|]; [|done].
  apply Forall_cons in Hnew as [Hr Hrs].
  rewrite add_annotations_cons by done.
  destruct (place_total aware w r Hw Hr) as [l1 Hl1]. rewrite Hl1. osimpl.
  apply IH; [|done|].
  - apply Forall_forall. intros x Hx.
    apply (place_elem_of _ _ _ Hl1) in Hx as [->|Hx]; [done|].
    by eapply Forall_forall in Hw.
  - left. destruct (place_head _ _ _ Hl1) as (x & l' & -> & _). done.
Qed.

(** *** Lines 145--168 *)

Lemma merge_annotations_inv base new m :
  merge_annotations (JArr base) new = Ok m →
  ∃ l, add_annotations (reverse base) new = Ok l ∧ m = reverse l.
Proof.
  unfold merge_annotations. cbn [py_reverse]. osimpl.
  intros (l & Hl & [= <-])%obind_Ok. eauto.
Qed.

Lemma merge_annotations_ascending base new m :
  ascending base → merge_annotations (JArr base) new = Ok m → ascending m.
Proof.
  intros Hs (l & Hl & ->)%merge_annotations_inv.
  apply Sorted_reverse in Hs.
  apply (add_annotations_sorted _ _ _ Hs) in Hl.
  by apply Sorted_reverse in Hl.
Qed.

Lemma merge_annotations_elem_of base new m :
  merge_annotations (JArr base) new = Ok m → ∀ x, x ∈ m ↔ x ∈ base ∨ x ∈ new.
Proof.
  intros (l & Hl & ->)%merge_annotations_inv x.
  rewrite elem_of_reverse, (add_annotations_elem_of _ _ _ Hl), elem_of_reverse. tauto.
Qed.

Lemma merge_annotations_total aware base new :
  Forall (has_timestamp aware) base → Forall (has_timestamp aware) new →
  base ≠ [] ∨ new = [] → ∃ m, merge_annotations (JArr base) new = Ok m.
Proof.
  intros Hb Hn Hne.
  destruct (add_annotations_total aware new (reverse base)) as [l Hl]; [|done| |].
  - by apply Forall_reverse.
  - destruct Hne as [Hne|]; [left|by right].
    intros Hr. apply Hne. by rewrite <- (reverse_involutive base), Hr.
  - unfold merge_annotations. cbn [py_reverse]. osimpl. rewrite Hl. by eexists.
Qed.

(** *** [place] on a descending list is [insert_after_ties] on its reverse *)

Lemma insert_after_ties_all_le r l :
  Forall (λ e, ts_leb e r = true) l → insert_after_ties r l = l ++ [r].
Proof.
  induction 1 as [|e l He _ IH]; [done|].
  cbn [insert_after_ties]. by rewrite He, IH.
Qed.

Lemma insert_after_ties_snoc_gt r e l :
  ts_leb e r = false → insert_after_ties r (l ++ [e]) = insert_after_ties r l ++ [e].
Proof.
  intros He. induction l as [|x l IH]; cbn [insert_after_ties app].
  - by rewrite He.
  - destruct (ts_leb x r); [by rewrite IH|done].
Qed.

Lemma ts_le_common_lower o a b :
  ts_le o a → ts_le o b →
  ∃ ta tb, markup_timestamp a = Ok ta ∧ markup_timestamp b = Ok tb
           ∧ datetime_le ta tb = Ok (ts_leb a b).
Proof.
  intros (to & ta & Ho & Ha & Hoa) (to' & tb & Ho' & Hb & Hob).
  rewrite Ho in Ho'. injection Ho' as <-.
  exists ta, tb. repeat split; try done.
  unfold ts_leb. rewrite Ha, Hb.
  unfold datetime_le in *.
  destruct (dt_aware to), (dt_aware ta), (dt_aware tb); done.
Qed.

Lemma place_insert_after_ties o w : ∀ r,
  Forall (ts_le o) w → ts_le o r → StronglySorted (flip ts_le) w → o ∈ w →
  place w r = Ok (reverse (insert_after_ties r (reverse w))).
Proof.
  induction w as [|e w IH]; intros r Hw Hr Hs Ho; [by apply elem_of_nil in Ho|].
  apply Forall_cons in Hw as [He Hw].
  apply StronglySorted_inv in Hs as [Hs Hall].
  destruct (ts_le_common_lower o e r He Hr) as (te & tr & Hte & Htr & Hle).
  cbn [place]. rewrite Hte, Htr. osimpl. rewrite Hle. osimpl.
  rewrite reverse_cons.
  destruct (ts_leb e r) eqn:Hb.
  - rewrite insert_after_ties_all_le.
    + by rewrite reverse_app, reverse_app, reverse_involutive.
    + apply Forall_app. split; [|by repeat constructor].
      apply Forall_reverse. eapply Forall_impl; [exact Hall|].
      intros x Hx. apply ts_le_leb. etrans; [exact Hx|]. by apply ts_le_leb.
  - rewrite insert_after_ties_snoc_gt by done.
    rewrite IH; try done.
    + osimpl. by rewrite reverse_app.
    + apply elem_of_cons in Ho as [->|Ho]; [|done].
      apply ts_le_leb in Hr. congruence.
Qed.

Lemma insert_after_ties_step o cur r :
  Sorted ts_le cur → o ∈ cur → Forall (ts_le o) cur → ts_le o r →
  place (reverse cur) r = Ok (reverse (insert_after_ties r cur))
  ∧ Sorted ts_le (insert_after_ties r cur)
  ∧ o ∈ insert_after_ties r cur
  ∧ Forall (ts_le o) (insert_after_ties r cur).
Proof.
  intros Hs Ho Hcur Hr.
  assert (Hp : place (reverse cur) r = Ok (reverse (insert_after_ties r cur))).
  { rewrite (place_insert_after_ties o), reverse_involutive; try done.
    - by apply Forall_reverse.
    - apply Sorted_StronglySorted; [apply _|]. by apply Sorted_reverse.
    - by apply elem_of_reverse. }
  split; [done|]. split; [|split].
  - destruct Hr as (_ & tr & _ & Htr & _).
    apply Sorted_reverse in Hs.
    pose proof (place_sorted _ _ _ _ Htr Hs Hp) as Hs'.
    apply Sorted_reverse in Hs'. by rewrite reverse_involutive in Hs'.
  - apply elem_of_reverse, (place_elem_of _ _ _ Hp). right. by apply elem_of_reverse.
  - apply Forall_forall. intros x Hx.
    apply elem_of_reverse, (place_elem_of _ _ _ Hp) in Hx as [->|Hx]; [done|].
    rewrite Forall_forall in Hcur. apply Hcur. by apply elem_of_reverse.
Qed.

Lemma add_annotations_insert_after_ties o incoming : ∀ cur,
  Sorted ts_le cur → o ∈ cur → Forall (ts_le o) cur → Forall (ts_le o) incoming →
  add_annotations (reverse cur) incoming
  = Ok (reverse (foldl (λ acc r, insert_after_ties r acc) cur incoming)).
Proof.
  induction incoming as [|r rs IH]; intros cur Hs Ho Hcur Hinc; [done|].
  apply Forall_cons in Hinc as [Hr Hrs].
  assert (Hne : reverse cur ≠ []).
  { intros Hnil. apply elem_of_reverse in Ho. rewrite Hnil in Ho.
    by apply elem_of_nil in Ho. }
  destruct (insert_after_ties_step o cur r) as (Hp & Hs' & Ho' & Hcur'); try done.
  rewrite add_annotations_cons, Hp by done. osimpl.
  cbn [foldl]. by apply IH.
Qed.

(** *** The order in which [insert_after_ties] leaves the records *)

Lemma insert_after_ties_sublist r l : l `sublist_of` insert_after_ties r l.
Proof.
  induction l as [|e l IH]; cbn [insert_after_ties].
  - apply sublist_nil_l.
  - destruct (ts_leb e r); [by apply sublist_skip|by apply sublist_cons].
Qed.

Lemma insert_after_ties_elem_of r l : r ∈ insert_after_ties r l.
Proof.
  induction l as [|e l IH]; cbn [insert_after_ties]; [left|].
  destruct (ts_leb e r); [by right|left].
Qed.

Lemma insert_after_ties_behind r l x :
  StronglySorted ts_le l → x ∈ l → ts_le x r →
  [x; r] `sublist_of` insert_after_ties r l.
Proof.
  induction 1 as [|e l _ IH Hall]; intros Hx Hxr; [by apply elem_of_nil in Hx|].
  cbn [insert_after_ties].
  assert (He : ts_leb e r = true).
  { apply ts_le_leb. apply elem_of_cons in Hx as [<-|Hx]; [done|].
    rewrite Forall_forall in Hall. etrans; [by apply Hall|done]. }
  rewrite He.
  apply elem_of_cons in Hx as [->|Hx].
  - apply sublist_skip, singleton_sublist_l, insert_after_ties_elem_of.
  - by apply sublist_cons, IH.
Qed.

Lemma foldl_insert_after_ties_stable o incoming : ∀ cur,
  Sorted ts_le cur → o ∈ cur → Forall (ts_le o) cur → Forall (ts_le o) incoming →
  let m := foldl (λ acc r, insert_after_ties r acc) cur incoming in
  cur `sublist_of` m
  ∧ (∀ x r, x ∈ cur → r ∈ incoming → ts_le x r → [x; r] `sublist_of` m)
  ∧ (∀ x y, [x; y] `sublist_of` incoming → ts_le x y → [x; y] `sublist_of` m).
Proof.
  induction incoming as [|r0 rs IH]; intros cur Hs Ho Hcur Hinc.
  - cbn. split; [done|]. split.
    + intros x r _ Hr. by apply elem_of_nil in Hr.
    + intros x y Hxy. by apply sublist_nil_r in Hxy.
  - apply Forall_cons in Hinc as [Hr0 Hrs].
    destruct (insert_after_ties_step o cur r0) as (_ & Hs' & Ho' & Hcur'); try done.
    destruct (IH _ Hs' Ho' Hcur' Hrs) as (Hsub & Hbehind & Hamong).
    cbn [foldl]. cbn zeta in *.
    pose proof (insert_after_ties_sublist r0 cur) as Hstep.
    split; [by etrans|]. split.
    + intros x r Hx [->|Hr]%elem_of_cons Hxr.
      * etrans; [|exact Hsub].
        apply insert_after_ties_behind; [|done..].
        by apply Sorted_StronglySorted; [apply _|].
      * apply Hbehind; [|done..]. by eapply elem_of_sublist.
    + intros x y Hxy Hle.
      apply sublist_cons_r in Hxy as [Hxy|(l' & [= -> <-] & Hy)].
      * by apply Hamong.
      * apply Hbehind; [apply insert_after_ties_elem_of| |done].
        by apply singleton_sublist_l.
Qed.

(** *** Lines 122--168 as a whole *)

Lemma merge_pages_str (E : set_order) ours theirs lo lt w :
  Forall2 (λ a k, annotation_id a = Ok (JStr k)) ours lo →
  Forall2 (λ a k, annotation_id a = Ok (JStr k)) theirs lt →
  let both := E (list_to_set lt ∩ list_to_set lo) in
  merge_pages E (JArr ours) (JArr theirs) w
  = (emit ((λ kb, warning_text kb.1) <$> shared_mismatches both ours theirs) w,
     merge_annotations (JArr ours)
       (List.filter (id_absent_from ours) theirs
        ++ (snd <$> shared_mismatches both ours theirs))).
Proof.
  intros Ho Ht both. unfold merge_pages. cbn [py_iter].
  assert (Hio : annotation_ids ours = Ok (JStr <$> lo)).
  { apply omap_Ok. by apply Forall2_fmap_r. }
  assert (Hit : annotation_ids theirs = Ok (JStr <$> lt)).
  { apply omap_Ok. by apply Forall2_fmap_r. }
  rewrite !M_bind_lift_Ok, Hio, !M_bind_lift_Ok, Hit, !M_bind_lift_Ok.
  rewrite (their_new_annotations_str E ours theirs lo lt), M_bind_lift_Ok by done.
  unfold both_annotation_ids.
  rewrite (proj2 (py_set_Ok (JStr <$> lt) (list_to_set lt))) by eauto.
  rewrite (proj2 (py_set_Ok (JStr <$> lo) (list_to_set lo))) by eauto.
  osimpl. rewrite M_bind_lift_Ok.
  unfold mbind at 1, M_bind at 1.
  rewrite check_shared_str; [done|..].
  - apply annotation_ids_has_str_id. eauto.
  - apply annotation_ids_has_str_id. eauto.
Qed.

Lemma merge_pages_Ok_inv (E : set_order) ours theirs w w' m :
  merge_pages E (JArr ours) (JArr theirs) w = (w', Ok m) →
  ∃ lo lt,
    Forall2 (λ a k, annotation_id a = Ok (JStr k)) ours lo ∧
    Forall2 (λ a k, annotation_id a = Ok (JStr k)) theirs lt.
Proof.
  unfold merge_pages. cbn [py_iter]. rewrite M_bind_lift_Ok.
  intros (our_ids & Hio & H)%M_bind_lift_inv.
  rewrite M_bind_lift_Ok in H.
  apply M_bind_lift_inv in H as (their_ids & Hit & H).
  apply M_bind_lift_inv in H as (new & Hnew & _).
  unfold their_new_annotations, their_new_annotation_ids in Hnew.
  apply obind_Ok in Hnew as (ids & Hids & _).
  apply obind_Ok in Hids as (st & (lt & -> & _)%py_set_Ok & Hids).
  apply obind_Ok in Hids as (so & (lo & -> & _)%py_set_Ok & _).
  exists lo, lt. split; by apply annotation_ids_str.
Qed.

Lemma merge_pages_total (E : set_order) aware ours theirs w :
  ours ≠ [] →
  Forall has_str_id (ours ++ theirs) →
  Forall (has_timestamp aware) (ours ++ theirs) →
  ∃ w' m, merge_pages E (JArr ours) (JArr theirs) w = (w', Ok m).
Proof.
  intros Hne [Hio Hit]%Forall_app [Hto Htt]%Forall_app.
  destruct (has_str_id_Forall2 _ Hio) as [lo Hlo].
  destruct (has_str_id_Forall2 _ Hit) as [lt Hlt].
  rewrite (merge_pages_str E ours theirs lo lt) by done.
  edestruct (merge_annotations_total aware ours) as [m Hm]; [done| |by left|].
  2: { rewrite Hm. eauto. }
  apply Forall_app. split.
  - apply Forall_forall. intros x Hx%list_elem_of_In%filter_In.
    destruct Hx as [Hx%list_elem_of_In _].
    rewrite Forall_forall in Htt. by apply Htt.
  - apply Forall_forall. intros x Hx%shared_mismatches_subseteq.
    rewrite Forall_forall in Htt. by apply Htt.
Qed.


Lemma merge_pages_never_out_of_fuel (E : set_order) ours theirs :
  no_oof (merge_pages E ours theirs).
Proof.
  unfold merge_pages.
  apply no_oof_bind; [apply no_oof_lift; by destruct ours|]. intros lo.
  apply no_oof_bind.
  { apply no_oof_lift, omap_never_out_of_fuel, annotation_id_never_out_of_fuel. }
  intros our_ids.
  apply no_oof_bind; [apply no_oof_lift; by destruct theirs|]. intros lt.
  apply no_oof_bind.
  { apply no_oof_lift, omap_never_out_of_fuel, annotation_id_never_out_of_fuel. }
  intros their_ids.
  assert (Hsets : ∀ f : gset string → gset string → list string,
            (st ← py_set their_ids; so ← py_set our_ids; Ok (f st so)) ≠ OutOfFuel).
  { intros f. apply obind_never_out_of_fuel; [apply py_set_never_out_of_fuel|].
    intros st. by apply obind_never_out_of_fuel; [apply py_set_never_out_of_fuel|]. }
  apply no_oof_bind.
  { apply no_oof_lift. unfold their_new_annotations.
    apply obind_never_out_of_fuel; [apply (Hsets (λ st so, E (st ∖ so)))|].
    intros ids. apply annotations_with_id_in_never_out_of_fuel. }
  intros new.
  apply no_oof_bind; [apply no_oof_lift, (Hsets (λ st so, E (st ∩ so)))|]. intros both.
  apply no_oof_bind; [apply check_shared_never_out_of_fuel|]. intros new'.
  apply no_oof_lift. unfold merge_annotations.
  apply obind_never_out_of_fuel; [by destruct ours|]. intros reversed.
  apply obind_never_out_of_fuel; [apply scan_fuel_enough|done].
Qed.

(** *** A slip of the loop, in general *)

(** A record that is older than every record of the list is added twice:
    once by [append], once by [insert] when the loop meets it again. *)
Lemma place_older_than_all w r tr :
  markup_timestamp r = Ok tr →
  Forall (λ e, ∃ te, markup_timestamp e = Ok te ∧ datetime_le te tr = Ok false) w →
  place w r = Ok (w ++ [r; r]).
Proof.
  intros Hr. induction 1 as [|e w (te & Hte & Hle) _ IH]; [done|].
  cbn [place]. rewrite Hte, Hr. osimpl. rewrite Hle. osimpl. by rewrite IH.
Qed.

Lemma add_annotation_older_than_all w r tr :
  w ≠ [] →
  markup_timestamp r = Ok tr →
  Forall (λ e, ∃ te, markup_timestamp e = Ok te ∧ datetime_le te tr = Ok false) w →
  add_annotation w r = Ok (w ++ [r; r]).
Proof.
  intros Hne Hr Hall. rewrite add_annotation_place by done.
  by eapply place_older_than_all.
Qed.

(** ** The claims *)

(** C1, as amended: on a base in ascending order whose oldest record is
    not later than any incoming record, the merge returns the base with
    the incoming records put in one after the other in encounter order,
    each behind every record present by then whose timestamp is not later
    than its own.  So two records whose timestamps are in order, equal ones
    included, stand in the merged collection in the order they have in the
    base followed by the incoming list: an incoming record comes after an
    existing record of the same timestamp, and incoming records of the same
    timestamp keep their encounter order. *)
Theorem incoming_placed_after_ties oldest rest incoming :
  ascending (oldest :: rest) →
  Forall (ts_le oldest) incoming →
  ∃ m, merge_annotations (JArr (oldest :: rest)) incoming = Ok m
     ∧ m = foldl (λ acc r, insert_after_ties r acc) (oldest :: rest) incoming
     ∧ ∀ x y, [x; y] `sublist_of` (oldest :: rest) ++ incoming →
              ts_le x y → [x; y] `sublist_of` m.
Proof.
  intros Hs Hinc. set (base := oldest :: rest) in *.
  destruct incoming as [|r rs].
  { exists base. unfold merge_annotations. cbn [py_reverse]. osimpl. cbn [add_annotations].
    osimpl. rewrite reverse_involutive. repeat split; try done.
    intros x y. by rewrite app_nil_r. }
  assert (Ho : oldest ∈ base) by left.
  assert (Hbase : Forall (ts_le oldest) base).
  { apply Forall_cons in Hinc as [(to & _ & Hto & _) _].
    apply Forall_cons. split; [by eapply ts_le_refl_of|].
    apply (Sorted_StronglySorted _) in Hs. by apply StronglySorted_inv in Hs as [_ ?]. }
  eexists. split; [|split; [reflexivity|]].
  - unfold merge_annotations. cbn [py_reverse]. osimpl.
    rewrite (add_annotations_insert_after_ties oldest) by done.
    osimpl. by rewrite reverse_involutive.
  - destruct (foldl_insert_after_ties_stable oldest (r :: rs) base)
      as (Hsub & Hbehind & Hamong); try done.
    intros x y Hxy Hle.
    apply sublist_app_r in Hxy as (k1 & k2 & Hk & Hk1 & Hk2).
    destruct k1 as [|x' [|y' k1]].
    + cbn in Hk. subst k2. by apply Hamong.
    + injection Hk as <- <-.
      apply Hbehind; [by apply singleton_sublist_l..|done].
    + cbn in Hk. injection Hk as <- <- Hk.
      symmetry in Hk. apply app_eq_nil in Hk as [-> ->]. by etrans.
Qed.

(** C6: when our collection is in ascending timestamp order, every
    adjacent pair of the merged list is in that order too; and the merged
    list is there whenever our collection is not empty, every id is a str
    and every timestamp is read, all with an offset or all without. *)
Theorem merged_output_ascending (E : set_order) ours theirs :
  ascending ours →
  (∀ w w' m, merge_pages E (JArr ours) (JArr theirs) w = (w', Ok m) → ascending m)
  ∧ (∀ aware w, ours ≠ [] →
       Forall has_str_id (ours ++ theirs) →
       Forall (has_timestamp aware) (ours ++ theirs) →
       ∃ w' m, merge_pages E (JArr ours) (JArr theirs) w = (w', Ok m)).
Proof.
  intros Hs. split.
  - intros w w' m H.
    destruct (merge_pages_Ok_inv _ _ _ _ _ _ H) as (lo & lt & Hlo & Hlt).
    rewrite (merge_pages_str E ours theirs lo lt) in H by done.
    injection H as _ H. by eapply merge_annotations_ascending.
  - intros aware w. apply merge_pages_total.
Qed.


End ResolverFacts.

(** ** Facts about the whole run, for any library *)

Section RunFacts.

Variable json_loads : string → option json.
Variable json_dumps : json → string.
Variable fromisoformat : string → option datetime.

Local Abbreviation merge_pages := (merge_pages fromisoformat).
Local Abbreviation json_load := (json_load json_loads).
Local Abbreviation resolve := (resolve json_loads json_dumps fromisoformat).

Lemma resolve_unfold (E : set_order) page w content ours theirs :
  files w !! page = Some content →
  split_sides (readlines content) = Ok (ours, theirs) →
  let fs := <["their_file" := writelines theirs]>
              (<["our_file" := writelines ours]> (files w)) in
  let w1 := {| files := fs; stdout := stdout w |} in
  resolve E page w =
  match json_loads (writelines ours) with
  | None => (w1, Raise JSONDecodeError)
  | Some our_annotations =>
      match json_loads (writelines theirs) with
      | None => (w1, Raise JSONDecodeError)
      | Some their_annotations =>
          match merge_pages E our_annotations their_annotations w1 with
          | (w2, Ok merged) =>
              ({| files := <["merged_file" := json_dumps (JArr merged)]> (files w2);
                  stdout := stdout w2 |}, Ok ())
          | (w2, Raise e) => (w2, Raise e)
          | (w2, OutOfFuel) => (w2, OutOfFuel)
          end
      end
  end.
Proof.
  intros Hpage Hsplit fs w1.
  unfold resolve.
  unfold mbind at 1, M_bind at 1, read_file at 1. rewrite Hpage.
  rewrite Hsplit, M_bind_lift_Ok.
  unfold mbind at 1, M_bind at 1, write_file at 1.
  unfold mbind at 1, M_bind at 1, write_file at 1. cbn [files stdout].
  fold fs. fold w1.
  unfold mbind at 1, M_bind at 1, json_load.
  unfold mbind at 1, M_bind at 1, read_file at 1.
  assert (Ho : files w1 !! "our_file" = Some (writelines ours)).
  { unfold w1, fs. cbn [files]. by rewrite lookup_insert_ne, lookup_insert_eq. }
  assert (Ht : files w1 !! "their_file" = Some (writelines theirs)).
  { unfold w1, fs. cbn [files]. by rewrite lookup_insert_eq. }
  rewrite Ho.
  destruct (json_loads (writelines ours)) as [our_annotations|]; [|done].
  unfold mret at 1, M_ret at 1.
  unfold mbind at 1, M_bind at 1.
  unfold mbind at 1, M_bind at 1, read_file at 1. rewrite Ht.
  destruct (json_loads (writelines theirs)) as [their_annotations|]; [|done].
  unfold mret at 1, M_ret at 1.
  unfold mbind at 1, M_bind at 1.
  by destruct (merge_pages E our_annotations their_annotations w1) as [w2 [m| |]].
Qed.

(** A marker met out of turn ends the run before anything is written. *)
Lemma marker_error_writes_nothing (E : set_order) page w content e :
  files w !! page = Some content →
  split_sides (readlines content) = Raise e →
  resolve E page w = (w, Raise e).
Proof.
  intros Hpage Hsplit. unfold resolve.
  unfold mbind at 1, M_bind at 1, read_file at 1. rewrite Hpage.
  by rewrite Hsplit.
Qed.

(** The run never ends for lack of iterations. *)
Lemma resolve_never_out_of_fuel (E : set_order) page w :
  (resolve E page w).2 ≠ OutOfFuel.
Proof.
  unfold resolve.
  apply no_oof_bind; [intros ?; unfold read_file; cbn; by destruct (_ !! _)|].
  intros content.
  apply no_oof_bind; [apply no_oof_lift, split_sides_never_out_of_fuel|].
  intros [ours theirs].
  apply no_oof_bind; [done|]. intros _.
  apply no_oof_bind; [done|]. intros _.
  assert (Hload : ∀ path, no_oof (json_load path)).
  { intros path. apply no_oof_bind.
    - intros ?. unfold read_file. cbn. by destruct (_ !! _).
    - intros c. by destruct (json_loads c). }
  apply no_oof_bind; [apply Hload|]. intros our_annotations.
  apply no_oof_bind; [apply Hload|]. intros their_annotations.
  apply no_oof_bind; [apply merge_pages_never_out_of_fuel|]. done.
Qed.

(** C5, as amended: when the text rebuilt for one of the two sides does
    not parse as JSON, the run ends with the decoder's exception, nothing
    is printed and [merged_file] is not written; [our_file] and
    [their_file] have been written by then and hold the two rebuilt
    texts. *)
Theorem parse_failure_leaves_both_sides_written (E : set_order) page w content ours theirs :
  files w !! page = Some content →
  split_sides (readlines content) = Ok (ours, theirs) →
  json_loads (writelines ours) = None ∨ json_loads (writelines theirs) = None →
  ∃ w', resolve E page w = (w', Raise JSONDecodeError)
      ∧ files w' !! "our_file" = Some (writelines ours)
      ∧ files w' !! "their_file" = Some (writelines theirs)
      ∧ files w' !! "merged_file" = files w !! "merged_file"
      ∧ stdout w' = stdout w.
Proof.
  intros Hpage Hsplit Hfail.
  rewrite (resolve_unfold E page w content ours theirs) by done.
  eexists. split.
  - destruct Hfail as [->| ->]; [done|].
    by destruct (json_loads (writelines ours)).
  - cbn [files stdout]. repeat split.
    + by rewrite lookup_insert_ne, lookup_insert_eq.
    + by rewrite lookup_insert_eq.
    + by rewrite !lookup_insert_ne.
Qed.


End RunFacts.


(** * The sample pages *)

Import Sample.

Ltac by_computation := vm_compute; repeat split; (reflexivity || discriminate).

Lemma sample_ts_le a b : ts_leb Lib.fromisoformat a b = true → ts_le Lib.fromisoformat a b.
Proof. apply ts_le_leb. Qed.

(** The scenario of [tests/test_conflicted_ac_page_resolver.py]: the
    merged file holds the six records in the order the test asks for. *)
Example test_resolve :
  files (run conflicted_page).1 !! "merged_file" ≫= Lib.json_loads
  = Some (JArr [first; third; second; fourth; fifth_1; fifth_2])
  ∧ (run conflicted_page).2 = Ok ().
Proof. by_computation. Qed.

(** The two orders of [Lib] do differ. *)
Example set_orders_differ :
  Lib.set_elements {[id1; id2; id3]} ≠ Lib.set_elements_backwards {[id1; id2; id3]}.
Proof. by_computation. Qed.

(** C1, counterexample: with base [[A]] and incoming [[B; C]], all of one
    instant, the merged list is [[A; B; C]] and not [[B; C; A]]. *)
Lemma tie_break_counterexample :
  merge_annotations Lib.fromisoformat (JArr [A]) [B; C] = Ok [A; B; C]
  ∧ merge_annotations Lib.fromisoformat (JArr [A]) [B; C] ≠ Ok [B; C; A].
Proof. by_computation. Qed.

(** C1, as amended, on that scenario. *)
Lemma incoming_placed_after_ties_witness :
  ascending Lib.fromisoformat [A]
  ∧ Forall (ts_le Lib.fromisoformat A) [B; C]
  ∧ ∃ m, merge_annotations Lib.fromisoformat (JArr [A]) [B; C] = Ok m
       ∧ m = foldl (λ acc r, insert_after_ties Lib.fromisoformat r acc) [A] [B; C]
       ∧ ∀ x y, [x; y] `sublist_of` [A] ++ [B; C] →
                ts_le Lib.fromisoformat x y → [x; y] `sublist_of` m.
Proof.
  assert (H1 : ascending Lib.fromisoformat [A]) by repeat constructor.
  assert (H2 : Forall (ts_le Lib.fromisoformat A) [B; C])
    by (repeat constructor; by apply sample_ts_le).
  split; [exact H1|]. split; [exact H2|].
  exact (incoming_placed_after_ties Lib.fromisoformat A [] [B; C] H1 H2).
Defined.

(** C2: a page without a conflict comes out twice in [our_file] and in
    [their_file], and the run ends in the decoder. *)
Theorem unconflicted_page_is_doubled :
  (run unconflicted_page).2 = Raise JSONDecodeError
  ∧ files (run unconflicted_page).1 !! "our_file"
    = Some (unconflicted_page +:+ unconflicted_page)
  ∧ files (run unconflicted_page).1 !! "their_file"
    = Some (unconflicted_page +:+ unconflicted_page)
  ∧ unconflicted_page +:+ unconflicted_page ≠ unconflicted_page.
Proof. by_computation. Qed.

(** C3: a page whose conflict is opened and never closed passes the marker
    scan; [our_file] and [their_file] are written, marker line included,
    and the run ends in the decoder. *)
Theorem unterminated_conflict_is_not_refused :
  split_sides (readlines truncated_page) = Ok ([nl "<<<<<<< HEAD"; nl "[]"], [nl "<<<<<<< HEAD"; nl "[]"])
  ∧ (run truncated_page).2 = Raise JSONDecodeError
  ∧ files (run truncated_page).1 !! "our_file" = Some truncated_page
  ∧ files (run truncated_page).1 !! "their_file" = Some truncated_page.
Proof. by_computation. Qed.

(** The sibling of that input: the marker that closes a conflict, met where
    the separator is due, ends the run at line 90 with nothing written. *)
Example misordered_page_is_refused :
  run misordered_page
  = (world_with misordered_page,
     Raise (RaisedStr
       "Expected marker '=======' but encountered '>>>>>>> master' on line 2")).
Proof.
  apply (marker_error_writes_nothing Lib.json_loads Lib.json_dumps Lib.fromisoformat
           Lib.set_elements "conflicted_page.json" _ misordered_page); by_computation.
Qed.

(** C4: a record older than the one record of the base is put in twice,
    and on an empty base the loop ends in the [raise] of line 164. *)
Theorem older_record_is_inserted_twice :
  merge_annotations Lib.fromisoformat (JArr [D]) [A] = Ok [A; A; D]
  ∧ merge_annotations Lib.fromisoformat (JArr []) [A]
    = Raise (RaisedStr "Failed to add annotation").
Proof. by_computation. Qed.

(** C5, counterexample: their side of the page is not JSON; the run ends
    in the decoder and has left [our_file] and [their_file] behind. *)
Lemma broken_side_counterexample :
  (run broken_page).2 = Raise JSONDecodeError
  ∧ files (run broken_page).1 !! "our_file" = Some (nl "[]")
  ∧ files (run broken_page).1 !! "their_file" = Some (nl "[")
  ∧ ¬ (files (run broken_page).1 !! "our_file" = None
       ∧ files (run broken_page).1 !! "their_file" = None
       ∧ files (run broken_page).1 !! "merged_file" = None).
Proof.
  repeat split; try by_computation.
  intros [H _]. vm_compute in H. discriminate.
Qed.

(** C5, as amended, on that page. *)
Lemma parse_failure_leaves_both_sides_written_witness :
  files (world_with broken_page) !! "conflicted_page.json" = Some broken_page
  ∧ split_sides (readlines broken_page) = Ok ([nl "[]"], [nl "["])
  ∧ (Lib.json_loads (writelines [nl "[]"]) = None
     ∨ Lib.json_loads (writelines [nl "["]) = None)
  ∧ ∃ w', run broken_page = (w', Raise JSONDecodeError)
        ∧ files w' !! "our_file" = Some (writelines [nl "[]"])
        ∧ files w' !! "their_file" = Some (writelines [nl "["])
        ∧ files w' !! "merged_file" = files (world_with broken_page) !! "merged_file"
        ∧ stdout w' = stdout (world_with broken_page).
Proof.
  assert (H1 : files (world_with broken_page) !! "conflicted_page.json" = Some broken_page)
    by (vm_compute; reflexivity).
  assert (H2 : split_sides (readlines broken_page) = Ok ([nl "[]"], [nl "["]))
    by (vm_compute; reflexivity).
  assert (H3 : Lib.json_loads (writelines [nl "[]"]) = None
               ∨ Lib.json_loads (writelines [nl "["]) = None)
    by (right; vm_compute; reflexivity).
  split; [exact H1|]. split; [exact H2|]. split; [exact H3|].
  exact (parse_failure_leaves_both_sides_written
           Lib.json_loads Lib.json_dumps Lib.fromisoformat Lib.set_elements
           "conflicted_page.json" (world_with broken_page) broken_page
           [nl "[]"] [nl "["] H1 H2 H3).
Defined.

(** C6 on the collections of the conflicted page. *)
Lemma merged_output_ascending_witness :
  ascending Lib.fromisoformat [first; second; fourth; fifth_1]
  ∧ (∀ w w' m,
       merge_pages Lib.fromisoformat Lib.set_elements
         (JArr [first; second; fourth; fifth_1]) (JArr [first; third; fourth; fifth_2]) w
       = (w', Ok m) → ascending Lib.fromisoformat m)
  ∧ (∀ aware w, [first; second; fourth; fifth_1] ≠ [] →
       Forall has_str_id ([first; second; fourth; fifth_1] ++ [first; third; fourth; fifth_2]) →
       Forall (has_timestamp Lib.fromisoformat aware)
         ([first; second; fourth; fifth_1] ++ [first; third; fourth; fifth_2]) →
       ∃ w' m,
         merge_pages Lib.fromisoformat Lib.set_elements
           (JArr [first; second; fourth; fifth_1]) (JArr [first; third; fourth; fifth_2]) w
         = (w', Ok m)).
Proof.
  assert (H1 : ascending Lib.fromisoformat [first; second; fourth; fifth_1])
    by (repeat constructor; by apply sample_ts_le).
  split; [exact H1|].
  exact (merged_output_ascending Lib.fromisoformat Lib.set_elements
           [first; second; fourth; fifth_1] [first; third; fourth; fifth_2] H1).
Defined.



(** C8 on the collections of the conflicted page. *)
Lemma new_records_are_theirs_absent_from_ours_witness :
  annotation_ids [first; second; fourth; fifth_1] = Ok (JStr <$> [id1; id2; id4; id5])
  ∧ annotation_ids [first; third; fourth; fifth_2] = Ok (JStr <$> [id1; id3; id4; id5])
  ∧ (∀ new,
       their_new_annotations Lib.set_elements (JStr <$> [id1; id2; id4; id5])
         (JStr <$> [id1; id3; id4; id5]) [first; third; fourth; fifth_2] = Ok new
       ↔ Forall has_str_id ([first; second; fourth; fifth_1] ++ [first; third; fourth; fifth_2])
         ∧ new = List.filter (id_absent_from [first; second; fourth; fifth_1])
                   [first; third; fourth; fifth_2])
  ∧ (∀ a k, annotation_id a = Ok (JStr k) →
       ∃ s p, getitem_str a "id" = Ok (JStr s) ∧ s = p +:+ k
              ∧ String.length k = min 42 (String.length s)).
Proof.
  assert (H1 : annotation_ids [first; second; fourth; fifth_1]
               = Ok (JStr <$> [id1; id2; id4; id5])) by (vm_compute; reflexivity).
  assert (H2 : annotation_ids [first; third; fourth; fifth_2]
               = Ok (JStr <$> [id1; id3; id4; id5])) by (vm_compute; reflexivity).
  split; [exact H1|]. split; [exact H2|].
  exact (new_records_are_theirs_absent_from_ours Lib.set_elements
           [first; second; fourth; fifth_1] [first; third; fourth; fifth_2]
           (JStr <$> [id1; id2; id4; id5]) (JStr <$> [id1; id3; id4; id5]) H1 H2).
Defined.

(** What line 125 returns on those collections. *)
Example new_records_of_conflicted_page :
  their_new_annotations Lib.set_elements (JStr <$> [id1; id2; id4; id5])
    (JStr <$> [id1; id3; id4; id5]) [first; third; fourth; fifth_2] = Ok [third].
Proof. by_computation. Qed.

(** C9: on the conflicted page the one line printed is the warning of
    line 139, which is not the line the test of the repository asks for. *)
Theorem warning_is_not_the_tested_message :
  stdout (run conflicted_page).1
  = ["WARNING: Mismatch in annotations with ID CATMA_EC4AAAB3-A65D-43E7-A966-67CDE70E636A, check manually"]
  ∧ stdout (run conflicted_page).1
    ≠ ["Mismatch in annotations with ID CATMA_EC4AAAB3-A65D-43E7-A966-67CDE70E636A"].
Proof. by_computation. Qed.

(** * More facts *)

(** ** The marker scan on a page of well-formed conflicts *)

Lemma append_empty_r s : s +:+ EmptyString = s.
Proof.
  induction s as [|c s IH]; [done|].
  change (String c (s +:+ EmptyString) = String c s). by rewrite IH.
Qed.

Lemma writelines_cons x l : writelines (x :: l) = x +:+ writelines l.
Proof.
  unfold writelines. destruct l as [|y l]; [|done].
  change (x = x +:+ EmptyString). by rewrite append_empty_r.
Qed.

Lemma append_assoc (a b c : string) : (a +:+ b) +:+ c = a +:+ (b +:+ c).
Proof.
  induction a as [|x a IH]; [done|].
  change (String x ((a +:+ b) +:+ c) = String x (a +:+ (b +:+ c))). by rewrite IH.
Qed.

Lemma writelines_app l1 l2 : writelines (l1 ++ l2) = writelines l1 +:+ writelines l2.
Proof.
  induction l1 as [|x l1 IH]; [done|].
  cbn [app]. by rewrite !writelines_cons, IH, append_assoc.
Qed.

Lemma writelines_chars line : writelines (chars line) = line.
Proof.
  induction line as [|c line IH]; [done|].
  cbn [chars]. by rewrite writelines_cons, IH.
Qed.

Lemma writelines_flat_map_chars l : writelines (flat_map chars l) = writelines l.
Proof.
  induction l as [|x l IH]; [done|].
  cbn [flat_map]. by rewrite writelines_app, writelines_chars, writelines_cons, IH.
Qed.

Lemma scan_lines_app l1 : ∀ st idx l2,
  scan_lines st idx (l1 ++ l2)
  = (st' ← scan_lines st idx l1; scan_lines st' (idx + length l1) l2).
Proof.
  induction l1 as [|x l1 IH]; intros st idx l2.
  - cbn. by rewrite Nat.add_0_r.
  - cbn [app scan_lines length].
    destruct (scan_line st idx x) as [st1| |]; [|done..].
    cbn [mbind outcome_bind obind]. rewrite IH.
    by replace (idx + 1 + length l1) with (idx + S (length l1)) by lia.
Qed.

Lemma scan_lines_plain l : ∀ st idx,
  Forall plain l → scan_lines st idx l = Ok st.
Proof.
  induction l as [|x l IH]; intros st idx Hl; [done|].
  apply Forall_cons in Hl as [(H1 & H2 & H3) Hl].
  cbn [scan_lines]. rewrite scan_line_plain by done.
  cbn [mbind outcome_bind obind]. by apply IH.
Qed.

Lemma scan_lines_singleton st idx line :
  scan_lines st idx [line] = scan_line st idx line.
Proof. cbn [scan_lines]. by destruct (scan_line st idx line). Qed.

Lemma length_block_lines b :
  length (block_lines b)
  = length (b_before b) + 1 + length (b_ours b) + 1 + length (b_theirs b) + 1.
Proof. unfold block_lines. rewrite !length_app. simpl. lia. Qed.

(** The scan over one block, from a state that waits for a conflict. *)
Lemma scan_block st i b :
  wf_block b → next_expected_marker st = HEAD_MARKER →
  ∃ st', scan_lines st i (block_lines b) = Ok st'
    ∧ next_expected_marker st' = HEAD_MARKER
    ∧ conflicts st' = conflicts st ++ [conflict_at i b]
    ∧ unconflicted_end_from_idx st' = Some (i + length (block_lines b))
    ∧ unconflicted_start_until_idx st'
      = Some (default (i + length (b_before b)) (unconflicted_start_until_idx st))
    ∧ unconflicted_line_idxs st'
      = match unconflicted_end_from_idx st with
        | Some e => if e <? i + length (b_before b)
                    then unconflicted_line_idxs st
                         ++ seq e (i + length (b_before b) - e)
                    else unconflicted_line_idxs st
        | None => unconflicted_line_idxs st
        end.
Proof.
  intros (Hbefore & Hhead & Hours & Hsep & Htheirs & Hend) Hnext.
  unfold block_lines.
  rewrite scan_lines_app, (scan_lines_plain _ _ _ Hbefore).
  cbn [mbind outcome_bind obind].
  rewrite scan_lines_app, scan_lines_singleton.
  unfold scan_line at 1. rewrite Hhead, Hnext.
  rewrite (bool_decide_true (HEAD_MARKER = HEAD_MARKER)) by done.
  cbn [andb mbind outcome_bind obind length].
  rewrite scan_lines_app, scan_lines_plain by done.
  cbn [mbind outcome_bind obind].
  rewrite scan_lines_app, scan_lines_singleton.
  unfold scan_line at 1. cbn [next_expected_marker].
  rewrite (bool_decide_false (SEPARATOR = HEAD_MARKER)) by done.
  rewrite Hsep, (bool_decide_true (SEPARATOR = SEPARATOR)) by done.
  rewrite andb_false_r. cbn [andb mbind outcome_bind obind length].
  rewrite scan_lines_app, scan_lines_plain by done.
  cbn [mbind outcome_bind obind].
  rewrite scan_lines_singleton.
  unfold scan_line at 1. cbn [next_expected_marker].
  rewrite (bool_decide_false (MASTER_MARKER = HEAD_MARKER)) by done.
  rewrite (bool_decide_false (MASTER_MARKER = SEPARATOR)) by done.
  rewrite Hend, (bool_decide_true (MASTER_MARKER = MASTER_MARKER)) by done.
  rewrite !andb_false_r. cbn [andb].
  eexists. split; [reflexivity|].
  cbn [next_expected_marker conflicts unconflicted_end_from_idx
       unconflicted_start_until_idx unconflicted_line_idxs
       ours_start ours_end theirs_start theirs_end].
  split; [done|]. split; [done|]. split.
  { f_equal. rewrite !length_app. simpl. lia. }
  split; [|done].
  by destruct (unconflicted_start_until_idx st).
Qed.

Lemma idxs_from_ge bs : ∀ i, Forall (λ j, i ≤ j) (idxs_from i bs).
Proof.
  induction bs as [|b bs IH]; intros i; [constructor|].
  cbn [idxs_from]. apply Forall_app. split.
  - apply Forall_forall. intros j Hj%elem_of_seq. lia.
  - eapply Forall_impl; [apply IH|]. intros j Hj. simpl in Hj. lia.
Qed.

(** The scan over the blocks behind the first one. *)
Lemma scan_blocks bs : ∀ st i x,
  Forall wf_block bs →
  next_expected_marker st = HEAD_MARKER →
  unconflicted_end_from_idx st = Some i →
  unconflicted_start_until_idx st = Some x →
  ∃ st', scan_lines st i (concat (block_lines <$> bs)) = Ok st'
    ∧ next_expected_marker st' = HEAD_MARKER
    ∧ conflicts st' = conflicts st ++ conflicts_from i bs
    ∧ unconflicted_end_from_idx st' = Some (i + length (concat (block_lines <$> bs)))
    ∧ unconflicted_start_until_idx st' = Some x
    ∧ unconflicted_line_idxs st' = unconflicted_line_idxs st ++ idxs_from i bs.
Proof.
  induction bs as [|b bs IH]; intros st i x Hwf Hnext Hend Hstart.
  - exists st. cbn. rewrite !app_nil_r, Nat.add_0_r. done.
  - apply Forall_cons in Hwf as [Hb Hbs].
    destruct (scan_block st i b Hb Hnext) as (st1 & Hscan & Hn1 & Hc1 & He1 & Hs1 & Hi1).
    rewrite Hstart in Hs1. cbn [default] in Hs1.
    destruct (IH st1 (i + length (block_lines b)) x Hbs Hn1 He1 Hs1)
      as (st2 & Hscan2 & Hn2 & Hc2 & He2 & Hs2 & Hi2).
    exists st2. cbn [fmap list_fmap concat].
    rewrite scan_lines_app, Hscan. cbn [mbind outcome_bind obind].
    rewrite Hscan2. repeat split; try done.
    + rewrite Hc2, Hc1. cbn [conflicts_from]. by rewrite <- (assoc_L (++)).
    + rewrite He2, length_app. f_equal. lia.
    + rewrite Hi2, Hi1, Hend. cbn [idxs_from].
      rewrite (assoc_L (++)). f_equal.
      destruct (i <? i + length (b_before b)) eqn:Hlt.
      * by replace (i + length (b_before b) - i) with (length (b_before b)) by lia.
      * apply Nat.ltb_ge in Hlt.
        replace (length (b_before b)) with 0 by lia. cbn. by rewrite app_nil_r.
Qed.

Lemma slice_middle {A : Type} (lines l1 xs l2 : list A) a b :
  lines = l1 ++ xs ++ l2 → a = length l1 → b = a + length xs →
  slice (Some a) (Some b) lines = xs.
Proof.
  intros -> -> ->. unfold slice. cbn [default from_option id].
  rewrite (assoc_L (++)).
  rewrite take_app_length' by (rewrite length_app; lia).
  by rewrite drop_app_length.
Qed.

(** The [while] loop of line 100 takes the indexes of the shared lines in
    front of a block and leaves those of the later blocks. *)
Lemma drain_seq lines bound later xs : ∀ i ours theirs,
  (∀ k x, xs !! k = Some x → lines !! (i + k) = Some x) →
  i + length xs ≤ bound →
  Forall (λ j, bound ≤ j) later →
  drain lines (seq i (length xs) ++ later) bound ours theirs
  = Ok (later, ours ++ flat_map chars xs, theirs ++ flat_map chars xs).
Proof.
  induction xs as [|x xs IH]; intros i ours theirs Hlook Hbound Hlater.
  - cbn [length seq app flat_map]. rewrite !app_nil_r.
    destruct later as [|j later]; [done|].
    apply Forall_cons in Hlater as [Hj _].
    cbn [drain]. by rewrite (proj2 (Nat.ltb_ge j bound)).
  - cbn [length seq app drain].
    rewrite (proj2 (Nat.ltb_lt i bound)) by (simpl in Hbound; lia).
    specialize (Hlook 0 x eq_refl) as Hx. rewrite Nat.add_0_r in Hx. rewrite Hx.
    rewrite IH.
    + cbn [flat_map]. by rewrite <- !(assoc_L (++)).
    + intros k y Hy. replace (S i + k) with (i + S k) by lia. by apply Hlook.
    + simpl in Hbound. lia.
    + done.
Qed.

Lemma drain_later lines bound later ours theirs :
  Forall (λ j, bound ≤ j) later →
  drain lines later bound ours theirs = Ok (later, ours, theirs).
Proof.
  intros Hlater. destruct later as [|j later]; [done|].
  apply Forall_cons in Hlater as [Hj _].
  cbn [drain]. by rewrite (proj2 (Nat.ltb_ge j bound)).
Qed.

Lemma splice_drain lines idxs bound ours theirs :
  match idxs with
  | [] => Ok (idxs, ours, theirs)
  | _ :: _ => drain lines idxs bound ours theirs
  end = drain lines idxs bound ours theirs.
Proof. by destruct idxs. Qed.

(** The loop of line 99 over blocks whose shared lines are in the deque. *)
Lemma splice_blocks after bs : ∀ done ours theirs,
  splice (done ++ concat (block_lines <$> bs) ++ after)
         (conflicts_from (length done) bs) (idxs_from (length done) bs) ours theirs
  = Ok (ours ++ spliced b_ours bs, theirs ++ spliced b_theirs bs).
Proof.
  induction bs as [|b bs IH]; intros done ours theirs.
  - cbn. by rewrite !app_nil_r.
  - cbn [conflicts_from idxs_from fmap list_fmap concat].
    set (lines := done ++ (block_lines b ++ concat (block_lines <$> bs)) ++ after).
    set (i' := length done + length (block_lines b)).
    unfold conflict_at. cbn [splice]. rewrite splice_drain.
    rewrite (drain_seq lines _ (idxs_from i' bs) (b_before b)).
    + cbn [mbind outcome_bind obind].
      rewrite (slice_middle lines (done ++ b_before b ++ [b_head b]) (b_ours b)
                 ([b_sep b] ++ b_theirs b ++ [b_end b]
                  ++ concat (block_lines <$> bs) ++ after)).
      2:{ unfold lines, block_lines. by rewrite <- !(assoc_L (++)). }
      2:{ rewrite !length_app. simpl. lia. }
      2:{ done. }
      rewrite (slice_middle lines
                 (done ++ b_before b ++ [b_head b] ++ b_ours b ++ [b_sep b])
                 (b_theirs b)
                 ([b_end b] ++ concat (block_lines <$> bs) ++ after)).
      2:{ unfold lines, block_lines. by rewrite <- !(assoc_L (++)). }
      2:{ rewrite !length_app. simpl. lia. }
      2:{ done. }
      replace lines with ((done ++ block_lines b) ++ concat (block_lines <$> bs) ++ after)
        by (unfold lines; by rewrite <- !(assoc_L (++))).
      replace i' with (length (done ++ block_lines b)) by (by rewrite length_app).
      rewrite IH. unfold spliced. cbn [fmap list_fmap concat].
      by rewrite <- !(assoc_L (++)).
    + intros k x Hx. unfold lines, block_lines.
      rewrite lookup_app_r by lia.
      replace (length done + k - length done) with k by lia.
      rewrite <- !(assoc_L (++)). by apply lookup_app_l_Some.
    + lia.
    + eapply Forall_impl; [apply idxs_from_ge|].
      intros j Hj. simpl in Hj. unfold i' in Hj. rewrite length_block_lines in Hj. lia.
Qed.

Lemma writelines_spliced side bs :
  writelines (spliced side bs)
  = writelines (concat ((λ b, b_before b ++ side b) <$> bs)).
Proof.
  unfold spliced. induction bs as [|b bs IH]; [done|].
  cbn [fmap list_fmap concat].
  by rewrite !writelines_app, writelines_flat_map_chars, IH.
Qed.

(** A page made of one or more well-formed conflicts, with shared
    lines in front of, between and behind them, is taken apart into its two
    versions: the texts written to [our_file] and [their_file] are the
    shared lines with the lines of the one side, and with those of the
    other, in the place of each conflict. *)
Lemma split_sides_recovers_both_sides b bs after :
  Forall wf_block (b :: bs) → Forall plain after →
  ∃ ours theirs,
    split_sides (page_lines (b :: bs) after) = Ok (ours, theirs)
    ∧ writelines ours = writelines (ours_of (b :: bs) after)
    ∧ writelines theirs = writelines (theirs_of (b :: bs) after).
Proof.
  intros [Hb Hbs]%Forall_cons Hafter.
  destruct (scan_block scan_init 0 b Hb eq_refl)
    as (st1 & Hscan1 & Hn1 & Hc1 & He1 & Hs1 & Hi1).
  cbn [scan_init unconflicted_end_from_idx unconflicted_start_until_idx
       unconflicted_line_idxs conflicts default app] in Hc1, Hs1, Hi1.
  destruct (scan_blocks bs st1 _ _ Hbs Hn1 He1 Hs1)
    as (st2 & Hscan2 & Hn2 & Hc2 & He2 & Hs2 & Hi2).
  unfold split_sides, page_lines. cbn [fmap list_fmap concat].
  rewrite scan_lines_app, scan_lines_app, Hscan1.
  cbn [mbind outcome_bind obind]. rewrite Hscan2.
  cbn [mbind outcome_bind obind].
  rewrite scan_lines_plain by done. cbn [mbind outcome_bind obind].
  unfold rebuild. rewrite Hs2, Hc2, Hc1, Hi2, Hi1, He2.
  cbn [app conflicts_from]. unfold conflict_at at 1. cbn [splice].
  set (lines := (block_lines b ++ concat (block_lines <$> bs)) ++ after).
  assert (Hhead : slice None (Some (0 + length (b_before b))) lines = b_before b).
  { unfold slice, lines, block_lines. cbn [default from_option id]. rewrite drop_0, Nat.add_0_l.
    rewrite <- !(assoc_L (++)). by rewrite take_app_length. }
  rewrite Hhead, splice_drain.
  rewrite drain_later; cycle 1.
  { eapply Forall_impl; [apply idxs_from_ge|].
    intros j Hj. simpl in Hj. rewrite length_block_lines in Hj. lia. }
  cbn [mbind outcome_bind obind].
  rewrite (slice_middle lines (b_before b ++ [b_head b]) (b_ours b)
             ([b_sep b] ++ b_theirs b ++ [b_end b]
              ++ concat (block_lines <$> bs) ++ after)).
  2:{ unfold lines, block_lines. by rewrite <- !(assoc_L (++)). }
  2:{ rewrite !length_app. simpl. lia. }
  2:{ done. }
  rewrite (slice_middle lines
             (b_before b ++ [b_head b] ++ b_ours b ++ [b_sep b]) (b_theirs b)
             ([b_end b] ++ concat (block_lines <$> bs) ++ after)).
  2:{ unfold lines, block_lines. by rewrite <- !(assoc_L (++)). }
  2:{ rewrite !length_app. simpl. lia. }
  2:{ done. }
  replace lines with (block_lines b ++ concat (block_lines <$> bs) ++ after)
    by (unfold lines; by rewrite <- !(assoc_L (++))).
  rewrite Nat.add_0_l.
  rewrite (splice_blocks after bs (block_lines b)).
  cbn [mbind outcome_bind obind].
  eexists _, _. split; [reflexivity|].
  assert (Htail : slice (Some (length (block_lines b) + length (concat (block_lines <$> bs))))
                    None (block_lines b ++ concat (block_lines <$> bs) ++ after) = after).
  { unfold slice. cbn [default from_option id]. rewrite (assoc_L (++)), <- length_app.
    by rewrite drop_app_length. }
  rewrite Htail. unfold ours_of, theirs_of. cbn [fmap list_fmap concat].
  by rewrite !writelines_app, !writelines_spliced.
Qed.

Import SampleBlocks.

Ltac plain_lines :=
  repeat first [ apply Forall_nil_2 | apply Forall_cons_2 ];
  repeat split; vm_compute; reflexivity.

(** The blocks of [SampleBlocks] are the lines of the conflicted page. *)
Example sample_blocks_are_the_page :
  page_lines [block1; block2] last_lines = readlines conflicted_page.
Proof. vm_compute. reflexivity. Qed.

Lemma sample_blocks_wf : Forall wf_block [block1; block2].
Proof. repeat apply Forall_cons_2; [| |apply Forall_nil_2]; repeat split; plain_lines. Qed.

(** The same on the conflicted page. *)
Lemma split_sides_recovers_both_sides_witness :
  Forall wf_block [block1; block2] ∧ Forall plain last_lines
  ∧ ∃ ours theirs,
      split_sides (page_lines [block1; block2] last_lines) = Ok (ours, theirs)
      ∧ writelines ours = writelines (ours_of [block1; block2] last_lines)
      ∧ writelines theirs = writelines (theirs_of [block1; block2] last_lines).
Proof.
  assert (H2 : Forall plain last_lines) by plain_lines.
  split; [exact sample_blocks_wf|]. split; [exact H2|].
  exact (split_sides_recovers_both_sides block1 [block2] last_lines sample_blocks_wf H2).
Defined.

(** ** What a run writes *)

Lemma only_prints_lift {A : Type} (o : outcome A) : only_prints (lift o).
Proof. intros w. done. Qed.

Lemma only_prints_ret {A : Type} (a : A) : only_prints (mret a).
Proof. intros w. done. Qed.

Lemma only_prints_print msg : only_prints (print msg).
Proof. intros w. split; [done|]. by apply prefix_app_r. Qed.

Lemma only_prints_bind {A B : Type} (m : M A) (f : A → M B) :
  only_prints m → (∀ a, only_prints (f a)) → only_prints (m ≫= f).
Proof.
  intros Hm Hf w. unfold mbind, M_bind.
  destruct (Hm w) as [Hfiles Hout].
  destruct (m w) as [w1 [a| |]]; [|done..].
  destruct (Hf a w1) as [Hfiles' Hout']. cbn [fst] in *.
  split; [congruence|]. by etrans.
Qed.

Lemma compare_with_theirs_only_prints a theirs :
  ∀ acc, only_prints (compare_with_theirs a theirs acc).
Proof.
  induction theirs as [|b rest IH]; intros acc; [apply only_prints_ret|].
  cbn [compare_with_theirs].
  apply only_prints_bind; [apply only_prints_lift|]. intros tid.
  apply only_prints_bind; [apply only_prints_lift|]. intros oid.
  destruct (py_ne tid oid); [apply IH|].
  destruct (py_ne b a); [|apply IH].
  apply only_prints_bind; [apply only_prints_lift|]. intros k.
  apply only_prints_bind; [apply only_prints_lift|]. intros msg.
  apply only_prints_bind; [apply only_prints_print|]. intros _. apply IH.
Qed.

Lemma check_shared_only_prints both ours theirs :
  ∀ acc, only_prints (check_shared both ours theirs acc).
Proof.
  induction ours as [|a rest IH]; intros acc; [apply only_prints_ret|].
  cbn [check_shared].
  apply only_prints_bind; [apply only_prints_lift|]. intros oid.
  destruct (negb _); [apply IH|].
  apply only_prints_bind; [apply compare_with_theirs_only_prints|]. intros acc'. apply IH.
Qed.

(** A line that begins with a marker other than the one the scan waits
    for ends the scan at line 90. *)
Lemma split_sides_unexpected_marker pre line rest st :
  scan_lines scan_init 0 pre = Ok st →
  startswith line HEAD_MARKER || startswith line SEPARATOR
    || startswith line MASTER_MARKER = true →
  startswith line (next_expected_marker st) = false →
  split_sides (pre ++ line :: rest)
  = Raise (marker_error (next_expected_marker st) line (length pre)).
Proof.
  intros Hpre Hmarker Hnot. unfold split_sides.
  rewrite scan_lines_app, Hpre. cbn [mbind outcome_bind obind scan_lines].
  assert (Hline : scan_line st (0 + length pre) line
                  = Raise (marker_error (next_expected_marker st) line (length pre))).
  { unfold scan_line. rewrite Hmarker, Hnot. cbn [negb andb].
    assert (Hbranch : ∀ marker,
              startswith line marker
              && bool_decide (next_expected_marker st = marker) = false).
    { intros marker. destruct (decide (next_expected_marker st = marker)) as [<-|Hne].
      - by rewrite Hnot.
      - rewrite (bool_decide_false _ Hne). apply andb_false_r. }
    by rewrite !Hbranch. }
  by rewrite Hline.
Qed.

Section RunFactsMore.

Variable json_loads : string → option json.
Variable json_dumps : json → string.
Variable fromisoformat : string → option datetime.

Local Abbreviation merge_pages := (merge_pages fromisoformat).
Local Abbreviation resolve := (resolve json_loads json_dumps fromisoformat).

(** Lines 122--168 write no file. *)
Lemma merge_pages_only_prints (E : set_order) ours theirs :
  only_prints (merge_pages E ours theirs).
Proof.
  unfold merge_pages.
  do 6 (apply only_prints_bind; [apply only_prints_lift|]; intros ?).
  apply only_prints_bind; [apply check_shared_only_prints|]. intros new'.
  apply only_prints_lift.
Qed.

Lemma resolve_missing_page (E : set_order) page w :
  files w !! page = None → resolve E page w = (w, Raise (FileNotFoundError page)).
Proof.
  intros Hpage. unfold resolve.
  unfold mbind at 1, M_bind at 1, read_file at 1. by rewrite Hpage.
Qed.

(** The files behind a run whose marker scan has come through. *)
Lemma resolve_files (E : set_order) page w content ours theirs :
  files w !! page = Some content →
  split_sides (readlines content) = Ok (ours, theirs) →
  let fs := <["their_file" := writelines theirs]>
              (<["our_file" := writelines ours]> (files w)) in
  (∃ m, (resolve E page w).2 = Ok ()
        ∧ files (resolve E page w).1 = <["merged_file" := json_dumps (JArr m)]> fs)
  ∨ ((resolve E page w).2 ≠ Ok () ∧ files (resolve E page w).1 = fs).
Proof.
  intros Hpage Hsplit fs.
  rewrite (resolve_unfold json_loads json_dumps fromisoformat E page w content ours theirs)
    by done.
  fold fs.
  destruct (json_loads (writelines ours)) as [our_annotations|]; [|by right].
  destruct (json_loads (writelines theirs)) as [their_annotations|]; [|by right].
  set (w1 := {| files := fs; stdout := stdout w |}).
  destruct (merge_pages_only_prints E our_annotations their_annotations w1) as [Hfiles _].
  destruct (merge_pages E our_annotations their_annotations w1) as [w2 [m| |]];
    cbn [fst snd files] in *.
  - left. exists m. by rewrite Hfiles.
  - by right.
  - by right.
Qed.

(** X1.  When the page is made of one or more well-formed conflicts,
    [our_file] and [their_file] hold the two versions of the page after the
    run, however the run goes on from there. *)
Theorem resolve_writes_both_versions (E : set_order) page w content b bs after :
  files w !! page = Some content →
  readlines content = page_lines (b :: bs) after →
  Forall wf_block (b :: bs) → Forall plain after →
  files (resolve E page w).1 !! "our_file"
  = Some (writelines (ours_of (b :: bs) after))
  ∧ files (resolve E page w).1 !! "their_file"
    = Some (writelines (theirs_of (b :: bs) after)).
Proof.
  intros Hpage Hlines Hwf Hafter.
  destruct (split_sides_recovers_both_sides b bs after Hwf Hafter)
    as (ours & theirs & Hsplit & <- & <-).
  rewrite <- Hlines in Hsplit.
  destruct (resolve_files E page w content ours theirs Hpage Hsplit)
    as [(m & _ & ->)|[_ ->]].
  - split.
    + by rewrite lookup_insert_ne, lookup_insert_ne, lookup_insert_eq.
    + by rewrite lookup_insert_ne, lookup_insert_eq.
  - split.
    + by rewrite lookup_insert_ne, lookup_insert_eq.
    + by rewrite lookup_insert_eq.
Qed.

(** X2.  A run leaves every entry of the working directory but [our_file],
    [their_file] and [merged_file] as it was, whatever the page holds,
    however its path is spelled and however the run ends.  The entries are
    the bare names: a path with a separator in it can be another spelling
    of one of the three ([./our_file]), which the file map does not
    see. *)
Theorem resolve_touches_only_its_outputs (E : set_order) page w path :
  bare_name path = true →
  path ≠ "our_file" → path ≠ "their_file" → path ≠ "merged_file" →
  files (resolve E page w).1 !! path = files w !! path.
Proof.
  intros _ Ho Ht Hm.
  destruct (files w !! page) as [content|] eqn:Hpage;
    [|by rewrite resolve_missing_page].
  destruct (split_sides (readlines content)) as [[ours theirs]|e|] eqn:Hsplit.
  - destruct (resolve_files E page w content ours theirs Hpage Hsplit)
      as [(m & _ & ->)|[_ ->]]; by rewrite !lookup_insert_ne.
  - by rewrite (marker_error_writes_nothing json_loads json_dumps fromisoformat
                  E page w content e).
  - by apply split_sides_never_out_of_fuel in Hsplit.
Qed.

(** X3.  [merged_file] is written by the runs that return and by no
    other: a run that ends in an exception leaves it as it was, and a run
    that returns has written a JSON list to it. *)
Theorem merged_file_written_on_success_only (E : set_order) page w :
  ((resolve E page w).2 ≠ Ok () →
     files (resolve E page w).1 !! "merged_file" = files w !! "merged_file")
  ∧ ((resolve E page w).2 = Ok () →
     ∃ m, files (resolve E page w).1 !! "merged_file" = Some (json_dumps (JArr m))).
Proof.
  destruct (files w !! page) as [content|] eqn:Hpage.
  2:{ rewrite resolve_missing_page by done. done. }
  destruct (split_sides (readlines content)) as [[ours theirs]|e|] eqn:Hsplit.
  - destruct (resolve_files E page w content ours theirs Hpage Hsplit)
      as [(m & Hok & Hfiles)|[Hnot Hfiles]]; rewrite Hfiles.
    + split; [done|]. intros _. exists m. by rewrite lookup_insert_eq.
    + split; [|done]. intros _. by rewrite !lookup_insert_ne.
  - rewrite (marker_error_writes_nothing json_loads json_dumps fromisoformat
               E page w content e) by done. done.
  - by apply split_sides_never_out_of_fuel in Hsplit.
Qed.

(** X4.  A line that begins with a marker other than the one the scan
    waits for ends the run at line 90: the message names the marker that
    was due, the line and its number, and nothing is written or printed. *)
Theorem unexpected_marker_is_refused (E : set_order) page w content pre line rest st :
  files w !! page = Some content →
  readlines content = pre ++ line :: rest →
  scan_lines scan_init 0 pre = Ok st →
  startswith line HEAD_MARKER || startswith line SEPARATOR
    || startswith line MASTER_MARKER = true →
  startswith line (next_expected_marker st) = false →
  resolve E page w
  = (w, Raise (RaisedStr ("Expected marker '" +:+ next_expected_marker st
                          +:+ "' but encountered '" +:+ str_drop_last line
                          +:+ "' on line " +:+ pretty (length pre + 1)))).
Proof.
  intros Hpage Hlines Hpre Hmarker Hnot.
  apply (marker_error_writes_nothing json_loads json_dumps fromisoformat
           E page w content); [done|].
  rewrite Hlines. by apply split_sides_unexpected_marker.
Qed.

End RunFactsMore.

(** ** What lines 122--168 keep, add and print *)

Lemma py_eq_str_r kb k : py_eq kb (JStr k) = true → kb = JStr k.
Proof.
  destruct kb; cbn [py_eq]; try done.
  by intros ->%String.eqb_eq.
Qed.

Lemma shared_mismatches_inv both ours theirs k b :
  (k, b) ∈ shared_mismatches both ours theirs →
  ∃ a, a ∈ ours ∧ b ∈ theirs ∧ k ∈ both
       ∧ annotation_id a = Ok (JStr k) ∧ annotation_id b = Ok (JStr k)
       ∧ py_ne b a = true.
Proof.
  unfold shared_mismatches.
  intros (a & Ha%list_elem_of_In & H)%list_elem_of_In%in_flat_map.
  destruct (annotation_id a) as [[| | |ka| |]| |] eqn:Hida; try done.
  destruct (bool_decide (ka ∈ both)) eqn:Hboth; [|done].
  apply bool_decide_eq_true in Hboth.
  apply list_elem_of_In, list_elem_of_fmap in H as (b' & [= -> ->] & H).
  unfold mismatched_with in H.
  apply list_elem_of_In, filter_In in H as [Hb%list_elem_of_In Hcond].
  rewrite Hida in Hcond.
  destruct (annotation_id b') as [kb| |] eqn:Hidb; try done.
  apply andb_true_iff in Hcond as [->%py_eq_str_r Hne].
  exists a. done.
Qed.

Lemma id_absent_from_nil a k :
  annotation_id a = Ok k → id_absent_from [] a = true.
Proof. intros H. unfold id_absent_from. by rewrite H. Qed.

Section MergeFactsMore.

Variable fromisoformat : string → option datetime.

Local Abbreviation markup_timestamp := (markup_timestamp fromisoformat).
Local Abbreviation add_annotation := (add_annotation fromisoformat).
Local Abbreviation add_annotations := (add_annotations fromisoformat).
Local Abbreviation merge_annotations := (merge_annotations fromisoformat).
Local Abbreviation merge_pages := (merge_pages fromisoformat).
Local Abbreviation place := (place fromisoformat).
Local Abbreviation ts_le := (ts_le fromisoformat).
Local Abbreviation ascending := (ascending fromisoformat).
Local Abbreviation insert_after_ties := (insert_after_ties fromisoformat).

(** X5.  When every id is a str, the lines printed by lines 122--168 are
    the warnings for the ids that a record of ours and a record of theirs
    share while the two records are not equal, and no other line; no file
    is written. *)
Theorem warnings_are_for_mismatches_only (E : set_order) ours theirs w :
  Forall has_str_id (ours ++ theirs) →
  ∃ msgs r,
    merge_pages E (JArr ours) (JArr theirs) w
    = ({| files := files w; stdout := stdout w ++ msgs |}, r)
    ∧ ∀ msg, msg ∈ msgs ↔
        ∃ a b k, a ∈ ours ∧ b ∈ theirs
                 ∧ annotation_id a = Ok (JStr k) ∧ annotation_id b = Ok (JStr k)
                 ∧ py_ne b a = true ∧ msg = warning_text k.
Proof.
  intros [Ho Ht]%Forall_app.
  destruct (has_str_id_Forall2 _ Ho) as [lo Hlo].
  destruct (has_str_id_Forall2 _ Ht) as [lt Hlt].
  rewrite (merge_pages_str fromisoformat E ours theirs lo lt) by done.
  eexists _, _. split; [reflexivity|].
  intros msg. rewrite list_elem_of_fmap. split.
  - intros ([k b] & -> & (a & Ha & Hb & _ & Hida & Hidb & Hne)%shared_mismatches_inv).
    exists a, b, k. done.
  - intros (a & b & k & Ha & Hb & Hida & Hidb & Hne & ->).
    exists (k, b). split; [done|].
    apply shared_mismatches_elem_of with (a := a); try done.
    apply set_to_list_elem, elem_of_intersection.
    rewrite !elem_of_list_to_set.
    destruct (Forall2_elem_of_l _ _ _ _ Hlo Ha) as (ka & Hka & Hida').
    destruct (Forall2_elem_of_l _ _ _ _ Hlt Hb) as (kb & Hkb & Hidb').
    rewrite Hida in Hida'. rewrite Hidb in Hidb'.
    injection Hida' as <-. injection Hidb' as <-. done.
Qed.

(** X6.  A record whose id is not a str stops lines 122--168 with an
    exception before a line is printed and before the lists are merged. *)
Theorem ids_are_checked_before_any_effect (E : set_order) ours theirs w a :
  a ∈ ours ++ theirs → ¬ has_str_id a →
  ∃ e, merge_pages E (JArr ours) (JArr theirs) w = (w, Raise e).
Proof.
  intros Ha Hnot. unfold merge_pages. cbn [py_iter]. rewrite !M_bind_lift_Ok.
  destruct (annotation_ids ours) as [our_ids|e|] eqn:Hio; [|by exists e|].
  2:{ by apply omap_never_out_of_fuel in Hio; [|apply annotation_id_never_out_of_fuel]. }
  rewrite !M_bind_lift_Ok.
  destruct (annotation_ids theirs) as [their_ids|e|] eqn:Hit; [|by exists e|].
  2:{ by apply omap_never_out_of_fuel in Hit; [|apply annotation_id_never_out_of_fuel]. }
  rewrite !M_bind_lift_Ok.
  unfold their_new_annotations, their_new_annotation_ids.
  destruct (py_set their_ids) as [st|e|] eqn:Hst; [|by exists e|].
  2:{ by apply py_set_never_out_of_fuel in Hst. }
  destruct (py_set our_ids) as [so|e|] eqn:Hso; [|by exists e|].
  2:{ by apply py_set_never_out_of_fuel in Hso. }
  exfalso. apply Hnot.
  apply py_set_Ok in Hst as (lt & -> & _). apply py_set_Ok in Hso as (lo & -> & _).
  assert (Hall : Forall has_str_id (ours ++ theirs)).
  { apply Forall_app. split; apply annotation_ids_has_str_id; eauto. }
  rewrite Forall_forall in Hall. by apply Hall.
Qed.

(** X7.  The merged list holds the records of ours, the records of theirs
    whose id no record of ours has, and the records of theirs that share
    their id with a record of ours they are not equal to; it holds no other
    record. *)
Theorem merged_holds_ours_new_and_mismatched (E : set_order) ours theirs w w' m :
  merge_pages E (JArr ours) (JArr theirs) w = (w', Ok m) →
  ∀ x, x ∈ m ↔
    x ∈ ours
    ∨ (x ∈ theirs ∧ id_absent_from ours x = true)
    ∨ (x ∈ theirs ∧ ∃ a k, a ∈ ours ∧ annotation_id a = Ok (JStr k)
                           ∧ annotation_id x = Ok (JStr k) ∧ py_ne x a = true).
Proof.
  intros H x.
  destruct (merge_pages_Ok_inv _ _ _ _ _ _ _ H) as (lo & lt & Hlo & Hlt).
  rewrite (merge_pages_str fromisoformat E ours theirs lo lt) in H by done.
  injection H as _ H.
  rewrite (merge_annotations_elem_of _ _ _ _ H x), elem_of_app.
  rewrite list_elem_of_fmap.
  assert (Hboth : ∀ a b k, a ∈ ours → b ∈ theirs →
            annotation_id a = Ok (JStr k) → annotation_id b = Ok (JStr k) →
            k ∈ E (list_to_set lt ∩ list_to_set lo)).
  { intros a b k Ha Hb Hida Hidb.
    apply set_to_list_elem, elem_of_intersection.
    rewrite !elem_of_list_to_set.
    destruct (Forall2_elem_of_l _ _ _ _ Hlo Ha) as (ka & Hka & Hida').
    destruct (Forall2_elem_of_l _ _ _ _ Hlt Hb) as (kb & Hkb & Hidb').
    rewrite Hida in Hida'. rewrite Hidb in Hidb'.
    injection Hida' as <-. injection Hidb' as <-. done. }
  split.
  - intros [?|[Hnew|Hmis]]; [by left|right; left|right; right].
    + apply list_elem_of_In, filter_In in Hnew as [Hx%list_elem_of_In Habs]. done.
    + destruct Hmis as ([k b] & -> & Hmis).
      apply shared_mismatches_inv in Hmis as (a & Ha & Hb & _ & Hida & Hidb & Hne).
      split; [done|]. by exists a, k.
  - intros [?|[[Hx Habs]|(Hx & a & k & Ha & Hida & Hidx & Hne)]];
      [by left|right; left|right; right].
    + apply list_elem_of_In, filter_In. split; [by apply list_elem_of_In|done].
    + exists (k, x). split; [done|].
      apply shared_mismatches_elem_of with (a := a); try done. by eapply Hboth.
Qed.

(** X8.  When our collection is empty and theirs is not, lines 122--168
    end in the [raise] of line 164 with nothing printed: every record of
    theirs is new and the loop of line 149 finds nothing to go through. *)
Theorem empty_ours_cannot_take_new_records (E : set_order) b theirs w :
  Forall has_str_id (b :: theirs) →
  merge_pages E (JArr []) (JArr (b :: theirs)) w
  = (w, Raise (RaisedStr "Failed to add annotation")).
Proof.
  intros Ht.
  destruct (has_str_id_Forall2 _ Ht) as [lt Hlt].
  rewrite (merge_pages_str fromisoformat E [] (b :: theirs) [] lt) by (done || constructor).
  cbn [shared_mismatches flat_map fmap list_fmap]. rewrite emit_nil, app_nil_r.
  apply Forall_cons in Ht as [[k Hk] _].
  cbn [List.filter]. by rewrite (id_absent_from_nil b (JStr k)).
Qed.

Lemma add_annotations_timestamps new : ∀ w l,
  add_annotations w new = Ok l →
  Forall (λ r, ∃ t, markup_timestamp r = Ok t) new.
Proof.
  induction new as [|r rs IH]; intros w l H; [constructor|].
  apply add_annotations_cons_inv in H as (e & w' & l1 & -> & Hp & H).
  destruct (place_inv _ _ _ _ _ Hp) as (_ & tr & _ & Htr & _).
  constructor; [by exists tr|by eapply IH].
Qed.

(** X9.  A merged list is returned only when the timestamp of every
    record that was to be put in could be read: a record without one is
    never put in and never left out in silence. *)
Theorem merge_reads_every_new_timestamp base incoming m :
  merge_annotations (JArr base) incoming = Ok m →
  Forall (λ r, ∃ t, markup_timestamp r = Ok t) incoming.
Proof.
  intros (l & Hl & _)%merge_annotations_inv. by eapply add_annotations_timestamps.
Qed.

Lemma insert_after_ties_Permutation r l : insert_after_ties r l ≡ₚ r :: l.
Proof.
  induction l as [|e l IH]; [done|]. cbn [insert_after_ties].
  destruct (ts_leb fromisoformat e r); [|done].
  rewrite IH. apply Permutation_swap.
Qed.

Lemma merge_annotations_insert_after_ties oldest rest incoming :
  ascending (oldest :: rest) →
  Forall (ts_le oldest) incoming →
  merge_annotations (JArr (oldest :: rest)) incoming
  = Ok (foldl (λ acc r, insert_after_ties r acc) (oldest :: rest) incoming).
Proof.
  intros Hs Hinc. unfold merge_annotations. cbn [py_reverse].
  cbn [mbind outcome_bind obind].
  destruct incoming as [|r rs].
  { cbn [add_annotations foldl]. cbn [mbind outcome_bind obind].
    by rewrite reverse_involutive. }
  assert (Hbase : Forall (ts_le oldest) (oldest :: rest)).
  { apply Forall_cons in Hinc as [(to & _ & Hto & _) _].
    apply Forall_cons. split; [by eapply ts_le_refl_of|].
    apply (@Sorted_StronglySorted _ _ (ts_le_trans fromisoformat)) in Hs.
    by apply StronglySorted_inv in Hs as [_ ?]. }
  rewrite (add_annotations_insert_after_ties fromisoformat oldest) by (done || left).
  cbn [mbind outcome_bind obind]. by rewrite reverse_involutive.
Qed.

Lemma foldl_insert_after_ties_Permutation incoming : ∀ base,
  foldl (λ acc r, insert_after_ties r acc) base incoming ≡ₚ base ++ incoming.
Proof.
  induction incoming as [|r rs IH]; intros base; [by rewrite app_nil_r|].
  cbn [foldl]. rewrite IH, insert_after_ties_Permutation.
  cbn [app]. apply Permutation_middle.
Qed.

(** X10.  On a base in ascending order whose oldest record is not later
    than any incoming record, the merged list is the records of the base
    and the incoming records, each as often as it is given: none is left
    out and none is put in twice. *)
Theorem merge_keeps_every_record_once oldest rest incoming :
  ascending (oldest :: rest) →
  Forall (ts_le oldest) incoming →
  ∃ m, merge_annotations (JArr (oldest :: rest)) incoming = Ok m
     ∧ m ≡ₚ (oldest :: rest) ++ incoming.
Proof.
  intros Hs Hinc. eexists. split.
  - by apply merge_annotations_insert_after_ties.
  - apply foldl_insert_after_ties_Permutation.
Qed.

(** X11.  A record that is older than every record of a base that is not
    empty comes twice into the merged list: line 160 appends it, the loop
    goes on to the item it has appended, and line 155 inserts the record in
    front of it. *)
Theorem older_than_all_comes_twice base r tr :
  base ≠ [] →
  markup_timestamp r = Ok tr →
  Forall (λ e, ∃ te, markup_timestamp e = Ok te ∧ datetime_le te tr = Ok false) base →
  merge_annotations (JArr base) [r] = Ok (r :: r :: base).
Proof.
  intros Hne Hr Hall. unfold merge_annotations. cbn [py_reverse add_annotations].
  cbn [mbind outcome_bind obind].
  rewrite (add_annotation_older_than_all fromisoformat (reverse base) r tr).
  - cbn [mbind outcome_bind obind].
    by rewrite reverse_app, reverse_involutive.
  - intros Hnil. apply Hne. by rewrite <- (reverse_involutive base), Hnil.
  - done.
  - by apply Forall_reverse.
Qed.

End MergeFactsMore.

(** ** A side that changes nothing *)

Lemma json_nested_ind (P : json → Prop) :
  P JNull → (∀ b, P (JBool b)) → (∀ z, P (JInt z)) → (∀ s, P (JStr s)) →
  (∀ l, Forall P l → P (JArr l)) →
  (∀ kvs, Forall (λ kv, P kv.2) kvs → P (JObj kvs)) →
  ∀ j, P j.
Proof.
  intros Hnull Hbool Hint Hstr Harr Hobj.
  fix IH 1. intros [|b|z|s|l|kvs];
    [apply Hnull|apply Hbool|apply Hint|apply Hstr|..].
  - apply Harr. induction l as [|x l IHl]; constructor; [apply IH|apply IHl].
  - apply Hobj. induction kvs as [|[k v] kvs IHkvs]; constructor; [apply IH|apply IHkvs].
Qed.

Lemma py_eq_JArr_cons a x b y :
  py_eq (JArr (a :: x)) (JArr (b :: y)) = py_eq a b && py_eq (JArr x) (JArr y).
Proof. reflexivity. Qed.

Lemma py_eq_JObj x y :
  py_eq (JObj x) (JObj y)
  = Nat.eqb (length x) (length y)
    && forallb (λ kv, match assoc kv.1 y with
                      | Some v' => py_eq kv.2 v'
                      | None => false
                      end) x.
Proof.
  cbn [py_eq]. f_equal.
  induction x as [|[k v] x IH]; [done|]. cbn [forallb fst snd]. by rewrite <- IH.
Qed.

Lemma assoc_NoDup kvs k v :
  NoDup kvs.*1 → (k, v) ∈ kvs → assoc k kvs = Some v.
Proof.
  induction kvs as [|[k' v'] kvs IH]; intros Hnd Hin; [by apply elem_of_nil in Hin|].
  cbn [fmap list_fmap fst] in Hnd. apply NoDup_cons in Hnd as [Hk' Hnd].
  cbn [assoc]. apply elem_of_cons in Hin as [[= -> ->]|Hin].
  - by rewrite String.eqb_refl.
  - destruct (String.eqb_spec k k') as [->|_]; [|by apply IH].
    exfalso. apply Hk'. apply list_elem_of_fmap. by exists (k', v).
Qed.

(** A value whose dicts have distinct keys is equal to itself. *)
Lemma py_eq_refl j : unique_keys j = true → py_eq j j = true.
Proof.
  induction j as [|b|z|s|l IH|kvs IH] using json_nested_ind; intros Huk; try done.
  - by destruct b.
  - apply Z.eqb_refl.
  - apply String.eqb_refl.
  - cbn [unique_keys] in Huk.
    induction IH as [|a l Ha _ IHl]; [done|].
    cbn [forallb] in Huk. apply andb_true_iff in Huk as [Hua Hul].
    rewrite py_eq_JArr_cons, (Ha Hua). by apply IHl.
  - cbn [unique_keys] in Huk. apply andb_true_iff in Huk as [Hnd Hall].
    apply bool_decide_eq_true in Hnd.
    rewrite py_eq_JObj, Nat.eqb_refl. cbn [andb].
    apply forallb_forall. intros [k v] Hin%list_elem_of_In. cbn [fst snd].
    rewrite (assoc_NoDup kvs k v Hnd Hin).
    rewrite Forall_forall in IH. apply (IH (k, v) Hin).
    rewrite forallb_forall in Hall. by apply (Hall (k, v)), list_elem_of_In.
Qed.

Lemma filter_nil_iff {A : Type} (f : A → bool) l :
  (∀ x, x ∈ l → f x = false) → List.filter f l = [].
Proof.
  induction l as [|a l IH]; intros H; [done|].
  cbn [List.filter]. rewrite (H a) by left. apply IH. intros x Hx. apply H. by right.
Qed.

Lemma flat_map_nil {A B : Type} (f : A → list B) l :
  (∀ x, x ∈ l → f x = []) → flat_map f l = [].
Proof.
  induction l as [|a l IH]; intros H; [done|].
  cbn [flat_map]. rewrite (H a) by left. apply IH. intros x Hx. apply H. by right.
Qed.

Lemma Forall2_NoDup_same {A B : Type} (P : A → B → Prop) l k a b y :
  Forall2 P l k → NoDup k → a ∈ l → b ∈ l → P a y → P b y →
  (∀ x y1 y2, P x y1 → P x y2 → y1 = y2) → a = b.
Proof.
  intros HF Hnd [i Hi]%list_elem_of_lookup [j Hj]%list_elem_of_lookup Ha Hb Hfun.
  destruct (Forall2_lookup_l _ _ _ _ _ HF Hi) as (ya & Hya & Pa).
  destruct (Forall2_lookup_l _ _ _ _ _ HF Hj) as (yb & Hyb & Pb).
  assert (ya = y) as -> by eauto. assert (yb = y) as -> by eauto.
  assert (i = j) as -> by (by eapply NoDup_lookup).
  congruence.
Qed.

Section UnchangedSide.

Variable fromisoformat : string → option datetime.

Local Abbreviation merge_pages := (merge_pages fromisoformat).

(** X12.  When their collection holds only records that ours holds too,
    the ids of ours being strs and pairwise different, lines 122--168
    return our collection as it is and print nothing, whatever the
    timestamps hold: a record that theirs lacks stays and nothing is
    added. *)
Theorem unchanged_side_changes_nothing (E : set_order) ours theirs lo w :
  annotation_ids ours = Ok (JStr <$> lo) → NoDup lo →
  Forall (λ a, unique_keys a = true) ours →
  (∀ b, b ∈ theirs → b ∈ ours) →
  merge_pages E (JArr ours) (JArr theirs) w = (w, Ok ours).
Proof.
  intros Hids Hnd Huk Hsub.
  apply annotation_ids_str in Hids as Hlo.
  assert (Hfun : ∀ (x : json) (k1 k2 : string),
            annotation_id x = Ok (JStr k1) → annotation_id x = Ok (JStr k2) → k1 = k2)
    by (intros; congruence).
  assert (Ht : Forall has_str_id theirs).
  { apply Forall_forall. intros b Hb%Hsub.
    destruct (Forall2_elem_of_l _ _ _ _ Hlo Hb) as (k & _ & Hk). by exists k. }
  destruct (has_str_id_Forall2 _ Ht) as [lt Hlt].
  rewrite (merge_pages_str fromisoformat E ours theirs lo lt) by done.
  rewrite filter_nil_iff.
  2:{ intros b Hb. destruct (Forall2_elem_of_l _ _ _ _ Hlo (Hsub b Hb)) as (k & Hk & Hid).
      rewrite (id_absent_from_str ours lo b k) by done.
      apply bool_decide_eq_false. tauto. }
  unfold shared_mismatches. rewrite flat_map_nil.
  2:{ intros a Ha. destruct (Forall2_elem_of_l _ _ _ _ Hlo Ha) as (k & Hk & Hida).
      rewrite Hida. destruct (bool_decide _); [|done].
      unfold mismatched_with. rewrite filter_nil_iff; [done|].
      intros b Hb. rewrite Hida.
      destruct (Forall2_elem_of_l _ _ _ _ Hlt Hb) as (kb & _ & Hidb). rewrite Hidb.
      destruct (py_eq (JStr kb) (JStr k)) eqn:Heq; [|done].
      apply py_eq_str_r in Heq as [= ->]. cbn [andb].
      assert (a = b) as <-.
      { eapply (Forall2_NoDup_same _ ours lo a b k Hlo Hnd); eauto. }
      unfold py_ne. rewrite py_eq_refl; [done|].
      rewrite Forall_forall in Huk. by apply Huk. }
  cbn [fmap list_fmap app]. rewrite emit_nil. f_equal.
  unfold merge_annotations. cbn [py_reverse add_annotations].
  cbn [mbind outcome_bind obind]. by rewrite reverse_involutive.
Qed.

End UnchangedSide.

(** ** A page without a marker *)

Lemma writelines_split_lines s : writelines (split_lines s) = s.
Proof.
  induction s as [|c s IH]; [done|]. cbn [split_lines].
  destruct (Ascii.eqb c LF).
  - by rewrite writelines_cons, IH.
  - destruct (split_lines s) as [|l ls].
    + rewrite <- IH. done.
    + rewrite writelines_cons in IH. rewrite writelines_cons, <- IH. done.
Qed.

Section PageWithoutMarker.

Variable json_loads : string → option json.
Variable json_dumps : json → string.
Variable fromisoformat : string → option datetime.

Local Abbreviation resolve := (resolve json_loads json_dumps fromisoformat).

(** X13.  When no line of the page begins with a marker, [our_file] and
    [their_file] hold the text of the page twice after the run: the two
    bounds of lines 97 and 106 are both still [None], and each of the two
    slices is the whole page. *)
Theorem page_without_marker_is_written_twice (E : set_order) page w content :
  files w !! page = Some content →
  Forall plain (readlines content) →
  files (resolve E page w).1 !! "our_file"
  = Some (universal_newlines content +:+ universal_newlines content)
  ∧ files (resolve E page w).1 !! "their_file"
    = Some (universal_newlines content +:+ universal_newlines content).
Proof.
  intros Hpage Hplain.
  pose proof (split_sides_without_markers (readlines content) Hplain) as Hsplit.
  assert (Htext : writelines (readlines content ++ readlines content)
                  = universal_newlines content +:+ universal_newlines content).
  { unfold readlines. by rewrite writelines_app, writelines_split_lines. }
  destruct (resolve_files json_loads json_dumps fromisoformat E page w content _ _
              Hpage Hsplit) as [(m & _ & ->)|[_ ->]]; rewrite Htext.
  - split.
    + by rewrite lookup_insert_ne, lookup_insert_ne, lookup_insert_eq.
    + by rewrite lookup_insert_ne, lookup_insert_eq.
  - split.
    + by rewrite lookup_insert_ne, lookup_insert_eq.
    + by rewrite lookup_insert_eq.
Qed.

End PageWithoutMarker.

(** ** The order of our records, timestamps that do not go together, and a
    page that is not a list *)

Lemma sublist_reverse {A : Type} (l1 l2 : list A) :
  l1 `sublist_of` l2 → reverse l1 `sublist_of` reverse l2.
Proof.
  induction 1 as [|x l1 l2 _ IH|x l1 l2 _ IH]; [done|..]; rewrite ?reverse_cons.
  - by apply sublist_app.
  - by apply sublist_inserts_r.
Qed.

Section OrderOfOurs.

Variable fromisoformat : string → option datetime.

Local Abbreviation markup_timestamp := (markup_timestamp fromisoformat).
Local Abbreviation add_annotations := (add_annotations fromisoformat).
Local Abbreviation merge_annotations := (merge_annotations fromisoformat).
Local Abbreviation merge_pages := (merge_pages fromisoformat).
Local Abbreviation place := (place fromisoformat).

Lemma place_sublist w : ∀ r l, place w r = Ok l → w `sublist_of` l.
Proof.
  induction w as [|e w IH]; intros r l Hp; [apply sublist_nil_l|].
  apply place_inv in Hp as (te & tr & _ & _ & [[_ ->]|[_ (l' & Hp & ->)]]).
  - by apply sublist_cons.
  - apply sublist_skip. by eapply IH.
Qed.

Lemma add_annotations_sublist new : ∀ w l,
  add_annotations w new = Ok l → w `sublist_of` l.
Proof.
  induction new as [|r rs IH]; intros w l H.
  - by injection H as <-.
  - apply add_annotations_cons_inv in H as (e & w' & l1 & -> & Hp & H).
    etrans; [by eapply place_sublist|by eapply IH].
Qed.

(** X14.  The merged list holds our records in the order our collection
    has them, whether that order follows the timestamps or not: records of
    theirs are put between them and no record of ours changes its place
    among the others. *)
Theorem ours_keep_their_order (E : set_order) ours theirs w w' m :
  merge_pages E (JArr ours) (JArr theirs) w = (w', Ok m) →
  ours `sublist_of` m.
Proof.
  intros H.
  destruct (merge_pages_Ok_inv _ _ _ _ _ _ _ H) as (lo & lt & Hlo & Hlt).
  rewrite (merge_pages_str fromisoformat E ours theirs lo lt) in H by done.
  injection H as _ H.
  apply merge_annotations_inv in H as (l & Hl & ->).
  apply add_annotations_sublist, sublist_reverse in Hl.
  by rewrite reverse_involutive in Hl.
Qed.

(** X15.  When the last record of our collection has a timestamp with an
    offset and the first record to put in has one without, or the other
    way round, the two cannot be ordered and the merge ends in a
    [TypeError]. *)
Theorem offset_and_no_offset_do_not_merge base newest r rs tn tr :
  markup_timestamp newest = Ok tn →
  markup_timestamp r = Ok tr →
  dt_aware tn ≠ dt_aware tr →
  merge_annotations (JArr (base ++ [newest])) (r :: rs) = Raise TypeError.
Proof.
  intros Hn Hr Hne. unfold merge_annotations. cbn [py_reverse].
  cbn [mbind outcome_bind obind].
  rewrite reverse_app, reverse_singleton. cbn [app].
  rewrite add_annotations_cons by done.
  cbn [place].
  rewrite Hn, Hr. cbn [mbind outcome_bind obind].
  unfold datetime_le.
  destruct (dt_aware tn), (dt_aware tr); done.
Qed.

(** X16.  Our side has to be a JSON list: for any other value nothing is
    printed or written and the merge ends in an exception. *)
Theorem ours_has_to_be_a_list (E : set_order) ours theirs w :
  (∀ l, ours ≠ JArr l) →
  ∃ e, merge_pages E ours theirs w = (w, Raise e).
Proof.
  intros Hl. unfold merge_pages.
  assert (Hempty : ∀ ours' : json, py_iter ours' = Ok [] →
            merge_annotations ours' = (λ _, Raise AttributeError) →
            ∃ e, (ours ← lift (py_iter ours');
                  our_ids ← lift (annotation_ids ours);
                  theirs ← lift (py_iter theirs);
                  their_ids ← lift (annotation_ids theirs);
                  new ← lift (their_new_annotations E our_ids their_ids theirs);
                  both_ids ← lift (both_annotation_ids E our_ids their_ids);
                  new' ← check_shared both_ids ours theirs new;
                  lift (merge_annotations ours' new')) w = (w, Raise e)).
  { intros ours' Hi Hm. rewrite Hi, Hm. unfold mbind, M_bind, lift. cbn.
    destruct (py_iter theirs) as [lt| |] eqn:H1; [|by eexists|by destruct theirs].
    destruct (annotation_ids lt) as [ids| |] eqn:H2; [|by eexists|].
    2: { by apply omap_never_out_of_fuel in H2;
           [|apply annotation_id_never_out_of_fuel]. }
    destruct (their_new_annotations E [] ids lt) as [new| |] eqn:H3;
      [|by eexists|].
    2: { exfalso. revert H3. unfold their_new_annotations, their_new_annotation_ids.
         apply obind_never_out_of_fuel.
         - apply obind_never_out_of_fuel; [apply py_set_never_out_of_fuel|].
           intros st. by apply obind_never_out_of_fuel.
         - intros k. apply annotations_with_id_in_never_out_of_fuel. }
    destruct (both_annotation_ids E [] ids) as [both| |] eqn:H4; [by eexists..|].
    exfalso. revert H4. unfold both_annotation_ids.
    apply obind_never_out_of_fuel; [apply py_set_never_out_of_fuel|].
    intros st. by apply obind_never_out_of_fuel. }
  destruct ours as [| | |s|l|kvs]; try by eexists.
  - destruct s as [|c s]; [by apply Hempty|by eexists].
  - by destruct (Hl l).
  - destruct kvs as [|[k v] kvs]; [by apply Hempty|by eexists].
Qed.

End OrderOfOurs.

(** ** A run as the merge of the two versions of the page *)







Section WholeRun.

Variable json_loads : string → option json.
Variable json_dumps : json → string.
Variable fromisoformat : string → option datetime.

Local Abbreviation merge_pages := (merge_pages fromisoformat).
Local Abbreviation resolve := (resolve json_loads json_dumps fromisoformat).



End WholeRun.

(** ** The statements above on the sample pages *)

Import SampleSides.

Lemma sample_has_str_id uuid timestamp unique :
  has_str_id (annotation uuid timestamp unique).
Proof. eexists. reflexivity. Qed.

Lemma sample_sides_have_str_ids : Forall has_str_id (ours_side ++ theirs_side).
Proof. repeat first [apply Forall_nil_2 | apply Forall_cons_2]; apply sample_has_str_id. Qed.

Lemma sample_sides_merge :
  merge_pages Lib.fromisoformat Lib.set_elements (JArr ours_side) (JArr theirs_side)
    (world_with conflicted_page)
  = (warned (world_with conflicted_page), Ok merged_side).
Proof. vm_compute. reflexivity. Qed.

(** X1 on the conflicted page. *)
Lemma resolve_writes_both_versions_witness :
  files (world_with conflicted_page) !! "conflicted_page.json" = Some conflicted_page
  ∧ readlines conflicted_page = page_lines [block1; block2] last_lines
  ∧ Forall wf_block [block1; block2]
  ∧ Forall plain last_lines
  ∧ files (run conflicted_page).1 !! "our_file"
    = Some (writelines (ours_of [block1; block2] last_lines))
  ∧ files (run conflicted_page).1 !! "their_file"
    = Some (writelines (theirs_of [block1; block2] last_lines)).
Proof.
  assert (H1 : files (world_with conflicted_page) !! "conflicted_page.json"
               = Some conflicted_page) by (vm_compute; reflexivity).
  assert (H2 : readlines conflicted_page = page_lines [block1; block2] last_lines)
    by (vm_compute; reflexivity).
  assert (H4 : Forall plain last_lines) by plain_lines.
  split; [exact H1|]. split; [exact H2|]. split; [exact sample_blocks_wf|].
  split; [exact H4|].
  exact (resolve_writes_both_versions Lib.json_loads Lib.json_dumps Lib.fromisoformat
           Lib.set_elements "conflicted_page.json" (world_with conflicted_page)
           conflicted_page block1 [block2] last_lines H1 H2 sample_blocks_wf H4).
Defined.

(** X2 on the conflicted page: the page file itself is left as it was. *)
Lemma resolve_touches_only_its_outputs_witness :
  bare_name "conflicted_page.json" = true
  ∧ "conflicted_page.json" ≠ "our_file"
  ∧ "conflicted_page.json" ≠ "their_file"
  ∧ "conflicted_page.json" ≠ "merged_file"
  ∧ files (run conflicted_page).1 !! "conflicted_page.json"
    = files (world_with conflicted_page) !! "conflicted_page.json".
Proof.
  assert (H0 : bare_name "conflicted_page.json" = true) by (vm_compute; reflexivity).
  assert (H1 : "conflicted_page.json" ≠ "our_file") by discriminate.
  assert (H2 : "conflicted_page.json" ≠ "their_file") by discriminate.
  assert (H3 : "conflicted_page.json" ≠ "merged_file") by discriminate.
  split; [exact H0|]. split; [exact H1|]. split; [exact H2|]. split; [exact H3|].
  exact (resolve_touches_only_its_outputs Lib.json_loads Lib.json_dumps Lib.fromisoformat
           Lib.set_elements "conflicted_page.json" (world_with conflicted_page)
           "conflicted_page.json" H0 H1 H2 H3).
Defined.

(** X4 on the page whose conflict is closed before it is divided. *)
Lemma unexpected_marker_is_refused_witness :
  files (world_with misordered_page) !! "conflicted_page.json" = Some misordered_page
  ∧ readlines misordered_page = [nl "<<<<<<< HEAD"] ++ nl ">>>>>>> master" :: []
  ∧ scan_lines scan_init 0 [nl "<<<<<<< HEAD"] = Ok after_head
  ∧ startswith (nl ">>>>>>> master") HEAD_MARKER
    || startswith (nl ">>>>>>> master") SEPARATOR
    || startswith (nl ">>>>>>> master") MASTER_MARKER = true
  ∧ startswith (nl ">>>>>>> master") (next_expected_marker after_head) = false
  ∧ run misordered_page
    = (world_with misordered_page,
       Raise (RaisedStr ("Expected marker '" +:+ next_expected_marker after_head
                         +:+ "' but encountered '" +:+ str_drop_last (nl ">>>>>>> master")
                         +:+ "' on line " +:+ pretty (length [nl "<<<<<<< HEAD"] + 1)))).
Proof.
  assert (H1 : files (world_with misordered_page) !! "conflicted_page.json"
               = Some misordered_page) by (vm_compute; reflexivity).
  assert (H2 : readlines misordered_page = [nl "<<<<<<< HEAD"] ++ nl ">>>>>>> master" :: [])
    by (vm_compute; reflexivity).
  assert (H3 : scan_lines scan_init 0 [nl "<<<<<<< HEAD"] = Ok after_head)
    by (vm_compute; reflexivity).
  assert (H4 : startswith (nl ">>>>>>> master") HEAD_MARKER
               || startswith (nl ">>>>>>> master") SEPARATOR
               || startswith (nl ">>>>>>> master") MASTER_MARKER = true)
    by (vm_compute; reflexivity).
  assert (H5 : startswith (nl ">>>>>>> master") (next_expected_marker after_head) = false)
    by (vm_compute; reflexivity).
  split; [exact H1|]. split; [exact H2|]. split; [exact H3|]. split; [exact H4|].
  split; [exact H5|].
  exact (unexpected_marker_is_refused Lib.json_loads Lib.json_dumps Lib.fromisoformat
           Lib.set_elements "conflicted_page.json" (world_with misordered_page)
           misordered_page [nl "<<<<<<< HEAD"] (nl ">>>>>>> master") [] after_head
           H1 H2 H3 H4 H5).
Defined.

(** X5 on the two sides of the conflicted page. *)
Lemma warnings_are_for_mismatches_only_witness :
  Forall has_str_id (ours_side ++ theirs_side)
  ∧ ∃ msgs r,
      merge_pages Lib.fromisoformat Lib.set_elements (JArr ours_side) (JArr theirs_side)
        (world_with conflicted_page)
      = ({| files := files (world_with conflicted_page);
            stdout := stdout (world_with conflicted_page) ++ msgs |}, r)
      ∧ ∀ msg, msg ∈ msgs ↔
          ∃ a b k, a ∈ ours_side ∧ b ∈ theirs_side
                   ∧ annotation_id a = Ok (JStr k) ∧ annotation_id b = Ok (JStr k)
                   ∧ py_ne b a = true ∧ msg = warning_text k.
Proof.
  split; [exact sample_sides_have_str_ids|].
  exact (warnings_are_for_mismatches_only Lib.fromisoformat Lib.set_elements
           ours_side theirs_side (world_with conflicted_page) sample_sides_have_str_ids).
Defined.

(** X6: a record without an id on their side. *)
Lemma ids_are_checked_before_any_effect_witness :
  no_id ∈ ours_side ++ [no_id]
  ∧ ¬ has_str_id no_id
  ∧ ∃ e, merge_pages Lib.fromisoformat Lib.set_elements (JArr ours_side) (JArr [no_id])
           (world_with conflicted_page)
         = (world_with conflicted_page, Raise e).
Proof.
  assert (H1 : no_id ∈ ours_side ++ [no_id])
    by (apply elem_of_app; right; apply list_elem_of_here).
  assert (H2 : ¬ has_str_id no_id) by (intros [k Hk]; discriminate Hk).
  split; [exact H1|]. split; [exact H2|].
  exact (ids_are_checked_before_any_effect Lib.fromisoformat Lib.set_elements
           ours_side [no_id] (world_with conflicted_page) no_id H1 H2).
Defined.

(** X7 on the two sides of the conflicted page. *)
Lemma merged_holds_ours_new_and_mismatched_witness :
  merge_pages Lib.fromisoformat Lib.set_elements (JArr ours_side) (JArr theirs_side)
    (world_with conflicted_page)
  = (warned (world_with conflicted_page), Ok merged_side)
  ∧ ∀ x, x ∈ merged_side ↔
      x ∈ ours_side
      ∨ (x ∈ theirs_side ∧ id_absent_from ours_side x = true)
      ∨ (x ∈ theirs_side ∧ ∃ a k, a ∈ ours_side ∧ annotation_id a = Ok (JStr k)
                                  ∧ annotation_id x = Ok (JStr k) ∧ py_ne x a = true).
Proof.
  split; [exact sample_sides_merge|].
  exact (merged_holds_ours_new_and_mismatched Lib.fromisoformat Lib.set_elements
           ours_side theirs_side (world_with conflicted_page)
           (warned (world_with conflicted_page)) merged_side sample_sides_merge).
Defined.

(** X8: one record of theirs and none of ours. *)
Lemma empty_ours_cannot_take_new_records_witness :
  Forall has_str_id [first]
  ∧ merge_pages Lib.fromisoformat Lib.set_elements (JArr []) (JArr [first])
      (world_with conflicted_page)
    = (world_with conflicted_page, Raise (RaisedStr "Failed to add annotation")).
Proof.
  assert (H1 : Forall has_str_id [first])
    by (apply Forall_cons_2; [apply sample_has_str_id|apply Forall_nil_2]).
  split; [exact H1|].
  exact (empty_ours_cannot_take_new_records Lib.fromisoformat Lib.set_elements
           first [] (world_with conflicted_page) H1).
Defined.

(** X9: the two records that are put behind [A]. *)
Lemma merge_reads_every_new_timestamp_witness :
  merge_annotations Lib.fromisoformat (JArr [A]) [B; C] = Ok [A; B; C]
  ∧ Forall (λ r, ∃ t, markup_timestamp Lib.fromisoformat r = Ok t) [B; C].
Proof.
  assert (H1 : merge_annotations Lib.fromisoformat (JArr [A]) [B; C] = Ok [A; B; C])
    by (vm_compute; reflexivity).
  split; [exact H1|].
  exact (merge_reads_every_new_timestamp Lib.fromisoformat [A] [B; C] [A; B; C] H1).
Defined.

(** X10: two records of the instant of [A] put into [A; D]. *)
Lemma merge_keeps_every_record_once_witness :
  ascending Lib.fromisoformat [A; D]
  ∧ Forall (ts_le Lib.fromisoformat A) [B; C]
  ∧ ∃ m, merge_annotations Lib.fromisoformat (JArr [A; D]) [B; C] = Ok m
       ∧ m ≡ₚ [A; D] ++ [B; C].
Proof.
  assert (H1 : ascending Lib.fromisoformat [A; D])
    by (repeat constructor; by apply sample_ts_le).
  assert (H2 : Forall (ts_le Lib.fromisoformat A) [B; C])
    by (repeat constructor; by apply sample_ts_le).
  split; [exact H1|]. split; [exact H2|].
  exact (merge_keeps_every_record_once Lib.fromisoformat A [D] [B; C] H1 H2).
Defined.

(** X11: [A] is older than the one record of the base. *)
Lemma older_than_all_comes_twice_witness :
  [D] ≠ []
  ∧ markup_timestamp Lib.fromisoformat A = Ok (instant t1)
  ∧ Forall (λ e, ∃ te, markup_timestamp Lib.fromisoformat e = Ok te
                       ∧ datetime_le te (instant t1) = Ok false) [D]
  ∧ merge_annotations Lib.fromisoformat (JArr [D]) [A] = Ok [A; A; D].
Proof.
  assert (H1 : [D] ≠ []) by discriminate.
  assert (H2 : markup_timestamp Lib.fromisoformat A = Ok (instant t1))
    by (vm_compute; reflexivity).
  assert (H3 : Forall (λ e, ∃ te, markup_timestamp Lib.fromisoformat e = Ok te
                                  ∧ datetime_le te (instant t1) = Ok false) [D]).
  { apply Forall_cons_2; [|apply Forall_nil_2].
    exists (instant t2). split; vm_compute; reflexivity. }
  split; [exact H1|]. split; [exact H2|]. split; [exact H3|].
  exact (older_than_all_comes_twice Lib.fromisoformat [D] A (instant t1) H1 H2 H3).
Defined.

(** X12: their side holds one of our two records and nothing else. *)
Lemma unchanged_side_changes_nothing_witness :
  annotation_ids [first; second] = Ok (JStr <$> [id1; id2])
  ∧ NoDup [id1; id2]
  ∧ Forall (λ a, unique_keys a = true) [first; second]
  ∧ (∀ b, b ∈ [first] → b ∈ [first; second])
  ∧ merge_pages Lib.fromisoformat Lib.set_elements (JArr [first; second]) (JArr [first])
      (world_with conflicted_page)
    = (world_with conflicted_page, Ok [first; second]).
Proof.
  assert (H1 : annotation_ids [first; second] = Ok (JStr <$> [id1; id2]))
    by (vm_compute; reflexivity).
  assert (H2 : NoDup [id1; id2]).
  { apply NoDup_cons_2; [|apply NoDup_singleton].
    intros H%list_elem_of_singleton. discriminate H. }
  assert (H3 : Forall (λ a, unique_keys a = true) [first; second])
    by (repeat first [apply Forall_nil_2 | apply Forall_cons_2]; vm_compute; reflexivity).
  assert (H4 : ∀ b, b ∈ [first] → b ∈ [first; second])
    by (intros b ->%list_elem_of_singleton; apply list_elem_of_here).
  split; [exact H1|]. split; [exact H2|]. split; [exact H3|]. split; [exact H4|].
  exact (unchanged_side_changes_nothing Lib.fromisoformat Lib.set_elements
           [first; second] [first] [id1; id2] (world_with conflicted_page) H1 H2 H3 H4).
Defined.

(** X13 on the page without a conflict. *)
Lemma page_without_marker_is_written_twice_witness :
  files (world_with unconflicted_page) !! "conflicted_page.json" = Some unconflicted_page
  ∧ Forall plain (readlines unconflicted_page)
  ∧ files (run unconflicted_page).1 !! "our_file"
    = Some (universal_newlines unconflicted_page +:+ universal_newlines unconflicted_page)
  ∧ files (run unconflicted_page).1 !! "their_file"
    = Some (universal_newlines unconflicted_page +:+ universal_newlines unconflicted_page).
Proof.
  assert (H1 : files (world_with unconflicted_page) !! "conflicted_page.json"
               = Some unconflicted_page) by (vm_compute; reflexivity).
  assert (H2 : Forall plain (readlines unconflicted_page)).
  { change (readlines unconflicted_page) with [nl "[]"]. plain_lines. }
  split; [exact H1|]. split; [exact H2|].
  exact (page_without_marker_is_written_twice Lib.json_loads Lib.json_dumps
           Lib.fromisoformat Lib.set_elements "conflicted_page.json"
           (world_with unconflicted_page) unconflicted_page H1 H2).
Defined.

(** X14 on the two sides of the conflicted page. *)
Lemma ours_keep_their_order_witness :
  merge_pages Lib.fromisoformat Lib.set_elements (JArr ours_side) (JArr theirs_side)
    (world_with conflicted_page)
  = (warned (world_with conflicted_page), Ok merged_side)
  ∧ ours_side `sublist_of` merged_side.
Proof.
  split; [exact sample_sides_merge|].
  exact (ours_keep_their_order Lib.fromisoformat Lib.set_elements
           ours_side theirs_side (world_with conflicted_page)
           (warned (world_with conflicted_page)) merged_side sample_sides_merge).
Defined.

(** X15: a timestamp without an offset meets one with an offset. *)
Lemma offset_and_no_offset_do_not_merge_witness :
  markup_timestamp Lib.fromisoformat A = Ok (instant t1)
  ∧ markup_timestamp Lib.fromisoformat naive = Ok (instant "2023-05-02T10:00:00.000")
  ∧ dt_aware (instant t1) ≠ dt_aware (instant "2023-05-02T10:00:00.000")
  ∧ merge_annotations Lib.fromisoformat (JArr ([] ++ [A])) [naive] = Raise TypeError.
Proof.
  assert (H1 : markup_timestamp Lib.fromisoformat A = Ok (instant t1))
    by (vm_compute; reflexivity).
  assert (H2 : markup_timestamp Lib.fromisoformat naive
               = Ok (instant "2023-05-02T10:00:00.000")) by (vm_compute; reflexivity).
  assert (H3 : dt_aware (instant t1) ≠ dt_aware (instant "2023-05-02T10:00:00.000"))
    by (vm_compute; discriminate).
  split; [exact H1|]. split; [exact H2|]. split; [exact H3|].
  exact (offset_and_no_offset_do_not_merge Lib.fromisoformat [] A naive []
           (instant t1) (instant "2023-05-02T10:00:00.000") H1 H2 H3).
Defined.

(** X16: our side is an object without a member. *)
Lemma ours_has_to_be_a_list_witness :
  (∀ l, JObj [] ≠ JArr l)
  ∧ ∃ e, merge_pages Lib.fromisoformat Lib.set_elements (JObj []) (JArr theirs_side)
           (world_with conflicted_page)
         = (world_with conflicted_page, Raise e).
Proof.
  assert (H1 : ∀ l, JObj [] ≠ JArr l) by discriminate.
  split; [exact H1|].
  exact (ours_has_to_be_a_list Lib.fromisoformat Lib.set_elements (JObj []) (JArr theirs_side)
           (world_with conflicted_page) H1).
Defined.

